(** * gomelcloud: the ATA device state codec, the change-flag tracker and
    the write guard of [SetDeviceState].

    The development embeds [ata_device.go] and the [SetDeviceState] method of
    [client.go].  Go values are modelled as follows.

    - [int] is a 64-bit two's-complement integer; it is modelled as [Z].  The
      only integer operations of the embedded code are [|=] with a positive
      constant, comparison, and the conversions of [strconv]; none of them can
      leave the 64-bit range (see [int_range_lor]), so no wrap-around has to be
      written out.  [x |= c] is [Z.lor].
    - [string] is a byte sequence: Rocq's [string] (a list of 8-bit [ascii]).
    - [float64] is the primitive binary64 float of Rocq.
    - [map[K]V] literals are finite maps ([gmap]); the comma-ok lookup
      [v, ok := m[k]] is [m !! k].
    - [error] is [option string]: [None] is [nil] and [Some msg] is an error
      whose [Error()] text is [msg].
    - A method with a pointer receiver [func (s *AtaDeviceState) F(..) error]
      becomes a function from the record to the updated record and the error. *)

From Stdlib Require Import ZArith Zbitwise String Ascii List Bool Lia.
From Stdlib Require Import PrimFloat.
From Stdlib Require Import Decimal DecimalString DecimalZ.
From stdpp Require Import base option gmap strings.

Open Scope string_scope.
Open Scope Z_scope.

(** ** Go primitives used by the package *)

Definition error : Type := option string.

Definition nil_error : error := None.

(** [fmt.Errorf(prefix + "%s", arg)] (also [%d] once the integer is printed):
    the message is the prefix followed by the argument. *)
Definition Errorf (prefix arg : string) : error := Some (prefix +:+ arg).

(** The range of Go's [int] on a 64-bit platform. *)
Definition minInt : Z := - 2 ^ 63.
Definition maxInt : Z := 2 ^ 63 - 1.
Definition int_range (z : Z) : Prop := minInt <= z <= maxInt.

(** The data model of [ata_device.go]. *)
Record AtaDeviceState : Type := mkAtaDeviceState {
  DeviceID : Z;
  BuildingID : Z;
  MacAddress : string;
  SerialNumber : string;
  DeviceType : Z;
  Power : bool;
  RoomTemperature : float;
  SetTemperature : float;
  OperationMode : Z;
  SetFanSpeed : Z;
  VaneHorizontal : Z;
  VaneVertical : Z;
  ErrorCode : Z;
  HasError : bool;
  LastCommunication : string;
  EffectiveFlags : Z;
  HasPendingCommand : bool
}.

(** Go's zero value of the struct ([AtaDeviceState{}], also what
    [var state AtaDeviceState] holds before a response is decoded into it). *)
Definition zeroAtaDeviceState : AtaDeviceState :=
  mkAtaDeviceState 0 0 "" "" 0 false 0%float 0%float 0 0 0 0 0 false "" 0 false.

(** Field assignments [s.F = v]. *)
Definition with_Power (v : bool) (s : AtaDeviceState) : AtaDeviceState :=
  mkAtaDeviceState (DeviceID s) (BuildingID s) (MacAddress s) (SerialNumber s)
    (DeviceType s) v (RoomTemperature s) (SetTemperature s) (OperationMode s)
    (SetFanSpeed s) (VaneHorizontal s) (VaneVertical s) (ErrorCode s) (HasError s)
    (LastCommunication s) (EffectiveFlags s) (HasPendingCommand s).

Definition with_SetTemperature (v : float) (s : AtaDeviceState) : AtaDeviceState :=
  mkAtaDeviceState (DeviceID s) (BuildingID s) (MacAddress s) (SerialNumber s)
    (DeviceType s) (Power s) (RoomTemperature s) v (OperationMode s)
    (SetFanSpeed s) (VaneHorizontal s) (VaneVertical s) (ErrorCode s) (HasError s)
    (LastCommunication s) (EffectiveFlags s) (HasPendingCommand s).

Definition with_OperationMode (v : Z) (s : AtaDeviceState) : AtaDeviceState :=
  mkAtaDeviceState (DeviceID s) (BuildingID s) (MacAddress s) (SerialNumber s)
    (DeviceType s) (Power s) (RoomTemperature s) (SetTemperature s) v
    (SetFanSpeed s) (VaneHorizontal s) (VaneVertical s) (ErrorCode s) (HasError s)
    (LastCommunication s) (EffectiveFlags s) (HasPendingCommand s).

Definition with_SetFanSpeed (v : Z) (s : AtaDeviceState) : AtaDeviceState :=
  mkAtaDeviceState (DeviceID s) (BuildingID s) (MacAddress s) (SerialNumber s)
    (DeviceType s) (Power s) (RoomTemperature s) (SetTemperature s) (OperationMode s)
    v (VaneHorizontal s) (VaneVertical s) (ErrorCode s) (HasError s)
    (LastCommunication s) (EffectiveFlags s) (HasPendingCommand s).

Definition with_VaneHorizontal (v : Z) (s : AtaDeviceState) : AtaDeviceState :=
  mkAtaDeviceState (DeviceID s) (BuildingID s) (MacAddress s) (SerialNumber s)
    (DeviceType s) (Power s) (RoomTemperature s) (SetTemperature s) (OperationMode s)
    (SetFanSpeed s) v (VaneVertical s) (ErrorCode s) (HasError s)
    (LastCommunication s) (EffectiveFlags s) (HasPendingCommand s).

Definition with_VaneVertical (v : Z) (s : AtaDeviceState) : AtaDeviceState :=
  mkAtaDeviceState (DeviceID s) (BuildingID s) (MacAddress s) (SerialNumber s)
    (DeviceType s) (Power s) (RoomTemperature s) (SetTemperature s) (OperationMode s)
    (SetFanSpeed s) (VaneHorizontal s) v (ErrorCode s) (HasError s)
    (LastCommunication s) (EffectiveFlags s) (HasPendingCommand s).

Definition with_BuildingID (v : Z) (s : AtaDeviceState) : AtaDeviceState :=
  mkAtaDeviceState (DeviceID s) v (MacAddress s) (SerialNumber s)
    (DeviceType s) (Power s) (RoomTemperature s) (SetTemperature s) (OperationMode s)
    (SetFanSpeed s) (VaneHorizontal s) (VaneVertical s) (ErrorCode s) (HasError s)
    (LastCommunication s) (EffectiveFlags s) (HasPendingCommand s).

Definition with_EffectiveFlags (v : Z) (s : AtaDeviceState) : AtaDeviceState :=
  mkAtaDeviceState (DeviceID s) (BuildingID s) (MacAddress s) (SerialNumber s)
    (DeviceType s) (Power s) (RoomTemperature s) (SetTemperature s) (OperationMode s)
    (SetFanSpeed s) (VaneHorizontal s) (VaneVertical s) (ErrorCode s) (HasError s)
    (LastCommunication s) v (HasPendingCommand s).

Definition with_HasPendingCommand (v : bool) (s : AtaDeviceState) : AtaDeviceState :=
  mkAtaDeviceState (DeviceID s) (BuildingID s) (MacAddress s) (SerialNumber s)
    (DeviceType s) (Power s) (RoomTemperature s) (SetTemperature s) (OperationMode s)
    (SetFanSpeed s) (VaneHorizontal s) (VaneVertical s) (ErrorCode s) (HasError s)
    (LastCommunication s) (EffectiveFlags s) v.

(** [s.EffectiveFlags |= flag]. *)
Definition or_flag (flag : Z) (s : AtaDeviceState) : AtaDeviceState :=
  with_EffectiveFlags (Z.lor (EffectiveFlags s) flag) s.

(** ** [strconv] (Go standard library, not part of the repository)

    [strconv.Atoi(s)] is [ParseInt(s, 10, 0)] converted to [int]: an optional
    leading [+] or [-], then at least one ASCII decimal digit and nothing
    else; the value must fit the 64-bit [int], otherwise a range error is
    returned.  [Some n] stands for [(n, nil)], [None] for a non-nil error (the
    package never looks at the integer returned with an error). *)

Definition is_digit (c : ascii) : bool :=
  let n := Z.of_N (N_of_ascii c) in (48 <=? n) && (n <=? 57).

Definition digit_value (c : ascii) : Z := Z.of_N (N_of_ascii c) - 48.

(** The digit loop of [ParseUint]: [n = n*10 + d] for every byte, a syntax
    error at the first byte that is not a digit. *)
Fixpoint parse_digits (acc : Z) (s : string) : option Z :=
  match s with
  | EmptyString => Some acc
  | String c rest =>
      if is_digit c then parse_digits (acc * 10 + digit_value c) rest else None
  end.

Definition Atoi (s : string) : option Z :=
  match s with
  | EmptyString => None
  | String c rest =>
      let neg := Ascii.eqb c "-" in
      let body := if Ascii.eqb c "+" || neg then rest else s in
      match body with
      | EmptyString => None
      | _ =>
          match parse_digits 0 body with
          | None => None
          | Some un =>
              let n := if neg then - un else un in
              if (minInt <=? n) && (n <=? maxInt) then Some n else None
          end
      end
  end.

(** [strconv.Itoa(i)] is [FormatInt(int64(i), 10)]: the decimal digits of
    [i] without leading zeros, preceded by [-] when [i] is negative. *)
Definition Itoa (i : Z) : string := NilZero.string_of_int (Z.to_int i).

(** The value of a decimal numeral read left to right from [acc]. *)
Fixpoint uint_value (acc : Z) (d : Decimal.uint) : Z :=
  match d with
  | Nil => acc
  | D0 d => uint_value (acc * 10 + 0) d
  | D1 d => uint_value (acc * 10 + 1) d
  | D2 d => uint_value (acc * 10 + 2) d
  | D3 d => uint_value (acc * 10 + 3) d
  | D4 d => uint_value (acc * 10 + 4) d
  | D5 d => uint_value (acc * 10 + 5) d
  | D6 d => uint_value (acc * 10 + 6) d
  | D7 d => uint_value (acc * 10 + 7) d
  | D8 d => uint_value (acc * 10 + 8) d
  | D9 d => uint_value (acc * 10 + 9) d
  end.

(** ** Constants of [ata_device.go] *)

Definition FlagPower : Z := 0x01.
Definition FlagOperationMode : Z := 0x02.
Definition FlagTargetTemp : Z := 0x04.
Definition FlagFanSpeed : Z := 0x08.
Definition FlagVaneVertical : Z := 0x10.
Definition FlagVaneHorizontal : Z := 0x100.

Definition OpModeHeat : Z := 1.
Definition OpModeDry : Z := 2.
Definition OpModeCool : Z := 3.
Definition OpModeFanOnly : Z := 7.
Definition OpModeHeatCool : Z := 8.
Definition OpModeUnknown : Z := -1.

Definition FanSpeedAuto : Z := 0.

Definition VaneVertAuto : Z := 0.
Definition VaneVert1 : Z := 1.
Definition VaneVert2 : Z := 2.
Definition VaneVert3 : Z := 3.
Definition VaneVert4 : Z := 4.
Definition VaneVert5 : Z := 5.
Definition VaneVertSwing : Z := 7.
Definition VaneVertUnknown : Z := -1.

Definition VaneHorizAuto : Z := 0.
Definition VaneHoriz1 : Z := 1.
Definition VaneHoriz2 : Z := 2.
Definition VaneHoriz3 : Z := 3.
Definition VaneHoriz4 : Z := 4.
Definition VaneHoriz5 : Z := 5.
Definition VaneHorizSplit : Z := 8.
Definition VaneHorizSwing : Z := 12.
Definition VaneHorizUnknown : Z := -1.

Definition ModeHeat : string := "heat".
Definition ModeDry : string := "dry".
Definition ModeCool : string := "cool".
Definition ModeFanOnly : string := "fan_only".
Definition ModeHeatCool : string := "heat_cool".
Definition ModeUnknown : string := "unknown".

Definition FanAuto : string := "auto".

Definition VaneAuto : string := "auto".
Definition VaneSwing : string := "swing".
Definition VaneSplit : string := "split".

(** ** The lookup tables *)

Definition opModeIntToString : gmap Z string :=
  <[OpModeHeat := ModeHeat]> (<[OpModeDry := ModeDry]> (<[OpModeCool := ModeCool]>
  (<[OpModeFanOnly := ModeFanOnly]> (<[OpModeHeatCool := ModeHeatCool]> ∅)))).

Definition opModeStringToInt : gmap string Z :=
  <[ModeHeat := OpModeHeat]> (<[ModeDry := OpModeDry]> (<[ModeCool := OpModeCool]>
  (<[ModeFanOnly := OpModeFanOnly]> (<[ModeHeatCool := OpModeHeatCool]> ∅)))).

Definition vaneVertIntToString : gmap Z string :=
  <[VaneVertAuto := VaneAuto]> (<[VaneVert1 := "1"]> (<[VaneVert2 := "2"]>
  (<[VaneVert3 := "3"]> (<[VaneVert4 := "4"]> (<[VaneVert5 := "5"]>
  (<[VaneVertSwing := VaneSwing]> ∅)))))).

Definition vaneVertStringToInt : gmap string Z :=
  <[VaneAuto := VaneVertAuto]> (<["1" := VaneVert1]> (<["2" := VaneVert2]>
  (<["3" := VaneVert3]> (<["4" := VaneVert4]> (<["5" := VaneVert5]>
  (<[VaneSwing := VaneVertSwing]> ∅)))))).

Definition vaneHorizIntToString : gmap Z string :=
  <[VaneHorizAuto := VaneAuto]> (<[VaneHoriz1 := "1"]> (<[VaneHoriz2 := "2"]>
  (<[VaneHoriz3 := "3"]> (<[VaneHoriz4 := "4"]> (<[VaneHoriz5 := "5"]>
  (<[VaneHorizSplit := VaneSplit]> (<[VaneHorizSwing := VaneSwing]> ∅))))))).

Definition vaneHorizStringToInt : gmap string Z :=
  <[VaneAuto := VaneHorizAuto]> (<["1" := VaneHoriz1]> (<["2" := VaneHoriz2]>
  (<["3" := VaneHoriz3]> (<["4" := VaneHoriz4]> (<["5" := VaneHoriz5]>
  (<[VaneSplit := VaneHorizSplit]> (<[VaneSwing := VaneHorizSwing]> ∅))))))).

(** ** Decoders and setters of [ata_device.go] *)

Definition OperationModeString (s : AtaDeviceState) : string :=
  match opModeIntToString !! OperationMode s with
  | Some mode => mode
  | None => ModeUnknown
  end.

Definition SetPower (power : bool) (s : AtaDeviceState) : AtaDeviceState :=
  or_flag FlagPower (with_Power power s).

Definition SetOperationMode (mode : string) (s : AtaDeviceState)
  : AtaDeviceState * error :=
  match opModeStringToInt !! mode with
  | Some modeInt => (or_flag FlagOperationMode (with_OperationMode modeInt s), nil_error)
  | None => (s, Errorf "invalid operation mode: " mode)
  end.

Definition SetTargetTemperature (temp : float) (s : AtaDeviceState) : AtaDeviceState :=
  or_flag FlagTargetTemp (with_SetTemperature temp s).

Definition SetFanSpeedMode (speed : string) (s : AtaDeviceState)
  : AtaDeviceState * error :=
  if String.eqb speed FanAuto then
    (or_flag FlagFanSpeed (with_SetFanSpeed FanSpeedAuto s), nil_error)
  else
    match Atoi speed with
    | Some speedInt =>
        if 0 <? speedInt then
          (or_flag FlagFanSpeed (with_SetFanSpeed speedInt s), nil_error)
        else (s, Errorf "invalid fan speed: " speed)
    | None => (s, Errorf "invalid fan speed: " speed)
    end.

Definition FanSpeedString (s : AtaDeviceState) : string :=
  if SetFanSpeed s =? FanSpeedAuto then FanAuto else Itoa (SetFanSpeed s).

Definition VaneVerticalString (s : AtaDeviceState) : string :=
  match vaneVertIntToString !! VaneVertical s with
  | Some pos => pos
  | None => "unknown"
  end.

Definition SetVaneVertical (pos : string) (s : AtaDeviceState)
  : AtaDeviceState * error :=
  match vaneVertStringToInt !! pos with
  | Some posInt => (or_flag FlagVaneVertical (with_VaneVertical posInt s), nil_error)
  | None => (s, Errorf "invalid vertical vane position: " pos)
  end.

Definition VaneHorizontalString (s : AtaDeviceState) : string :=
  match vaneHorizIntToString !! VaneHorizontal s with
  | Some pos => pos
  | None => "unknown"
  end.

Definition SetVaneHorizontal (pos : string) (s : AtaDeviceState)
  : AtaDeviceState * error :=
  match vaneHorizStringToInt !! pos with
  | Some posInt => (or_flag FlagVaneHorizontal (with_VaneHorizontal posInt s), nil_error)
  | None => (s, Errorf "invalid horizontal vane position: " pos)
  end.

Definition ResetEffectiveFlags (s : AtaDeviceState) : AtaDeviceState :=
  with_EffectiveFlags 0 s.

(** ** [client.go]: the transport and the write guard

    The HTTP round trip and the JSON codec are external to the package.  The
    client carries its [httpClient], whose [Do] method is the only way a
    request leaves the process; the JSON functions are the fields of [JSON].
    Every function below also returns the list of requests handed to [Do], in
    order, so that "no network call" is the empty list. *)

Inductive result (A : Type) : Type :=
  | Ok (a : A)
  | Err (msg : string).
Arguments Ok {A} a.
Arguments Err {A} msg.

(** [http.Header] is [map[string][]string]. *)
Record Request : Type := mkRequest {
  Method : string;
  URL : string;
  Header : gmap string (list string);
  Body : string
}.

Record Response : Type := mkResponse {
  StatusCode : Z;
  RespBody : string
}.

Record JSON : Type := mkJSON {
  (** [json.Marshal(state)] *)
  Marshal : AtaDeviceState -> result string;
  (** [json.NewDecoder(resp.Body).Decode(&state)] into a zero-valued struct *)
  DecodeState : string -> result AtaDeviceState;
  (** [json.NewDecoder(resp.Body).Decode(&errBody)] followed by the [%v]
      printing of the decoded map; [None] when the body does not decode *)
  DecodeDetails : string -> option string
}.

Record Client : Type := mkClient {
  token : string;
  (** [c.httpClient.Do(req)] *)
  httpClient : Request -> result Response
}.

Definition baseURL : string := "https://app.melcloud.com/Mitsubishi.Wifi.Client".

Definition StatusOK : Z := 200.

(** [http.NewRequest(method, url, body)]: for the fixed methods and the
    well-formed URLs built below the standard library returns the request
    with an empty header; the error branch of the callers is kept. *)
Definition NewRequest (method url body : string) : result Request :=
  Ok (mkRequest method url ∅ body).

(** [textproto.CanonicalMIMEHeaderKey] (Go standard library).  A key made of
    header field bytes only (letters, digits and the punctuation of an HTTP
    token) is canonicalised: its first letter and every letter that follows
    a [-] become upper case and the other letters lower case.  A key with any
    other byte, a space included, is returned as it is. *)
Definition is_lower (c : ascii) : bool :=
  let n := Z.of_N (N_of_ascii c) in (97 <=? n) && (n <=? 122).

Definition is_upper (c : ascii) : bool :=
  let n := Z.of_N (N_of_ascii c) in (65 <=? n) && (n <=? 90).

Definition validHeaderFieldByte (c : ascii) : bool :=
  is_lower c || is_upper c || is_digit c
  || existsb (Ascii.eqb c) (list_ascii_of_string "!#$%&'*+-.^_`|~").

Fixpoint all_bytes (p : ascii -> bool) (s : string) : bool :=
  match s with
  | EmptyString => true
  | String c rest => p c && all_bytes p rest
  end.

(** The loop of [canonicalMIMEHeaderKey]; [upper] tells whether the next
    letter is to be in upper case. *)
Fixpoint canonical_bytes (upper : bool) (s : string) : string :=
  match s with
  | EmptyString => EmptyString
  | String c rest =>
      let c' :=
        if upper && is_lower c then ascii_of_N (N_of_ascii c - 32)
        else if negb upper && is_upper c then ascii_of_N (N_of_ascii c + 32)
        else c in
      String c' (canonical_bytes (Ascii.eqb c' "-") rest)
  end.

Definition CanonicalMIMEHeaderKey (s : string) : string :=
  if all_bytes validHeaderFieldByte s then canonical_bytes true s else s.

(** [req.Header.Set(k, v)]: the canonical form of the key is mapped to the
    one-element slice holding the value, replacing what the key held. *)
Definition Header_Set (k v : string) (req : Request) : Request :=
  mkRequest (Method req) (URL req)
    (<[CanonicalMIMEHeaderKey k := [v]]> (Header req)) (Body req).

Definition setHeaders (c : Client) (req : Request) : Request :=
  Header_Set "Accept" "application/json"
    (Header_Set "User-Agent" "melcloud-go"
      (Header_Set "X-MitsContextKey" (token c) req)).

Definition GetDeviceState (J : JSON) (c : Client) (deviceID buildingID : Z)
  : result AtaDeviceState * list Request :=
  let url := baseURL +:+ "/Device/Get?id=" +:+ Itoa deviceID
             +:+ "&buildingID=" +:+ Itoa buildingID in
  match NewRequest "GET" url "" with
  | Err e => (Err ("failed to create get device state request: " +:+ e), [])
  | Ok req0 =>
      let req := setHeaders c req0 in
      match httpClient c req with
      | Err e => (Err ("failed to execute get device state request: " +:+ e), [req])
      | Ok resp =>
          if negb (StatusCode resp =? StatusOK) then
            let head := "get device state failed for device " +:+ Itoa deviceID
                        +:+ " (building " +:+ Itoa buildingID
                        +:+ ") with status code: " +:+ Itoa (StatusCode resp) in
            match DecodeDetails J (RespBody resp) with
            | Some details => (Err (head +:+ ", details: " +:+ details), [req])
            | None => (Err head, [req])
            end
          else
            match DecodeState J (RespBody resp) with
            | Err e =>
                (Err ("failed to decode get device state response for device "
                      +:+ Itoa deviceID +:+ ": " +:+ e), [req])
            | Ok state => (Ok (with_BuildingID buildingID state), [req])
            end
      end
  end.

(** The message of the error returned for an empty flag set (the
    "no pending changes" error of the write guard). *)
Definition NoPendingChanges : string :=
  "SetDeviceState requires EffectiveFlags to be set to indicate changes".

Definition SetDeviceState (J : JSON) (c : Client) (state0 : AtaDeviceState)
  : result AtaDeviceState * list Request :=
  if EffectiveFlags state0 =? 0 then (Err NoPendingChanges, [])
  else
    let state := with_HasPendingCommand true state0 in
    if negb (DeviceType state =? 0) then
      (Err ("unsupported device type for SetDeviceState: " +:+ Itoa (DeviceType state)), [])
    else
      let setURL := baseURL +:+ "/Device/SetAta" in
      match Marshal J state with
      | Err e => (Err ("failed to marshal set device state request body: " +:+ e), [])
      | Ok jsonBody =>
          match NewRequest "POST" setURL jsonBody with
          | Err e => (Err ("failed to create set device state request: " +:+ e), [])
          | Ok req0 =>
              let req := Header_Set "Content-Type" "application/json" (setHeaders c req0) in
              match httpClient c req with
              | Err e =>
                  (Err ("failed to execute set device state request: " +:+ e), [req])
              | Ok resp =>
                  if negb (StatusCode resp =? StatusOK) then
                    let head := "set device state failed for device "
                                +:+ Itoa (DeviceID state) +:+ " with status code: "
                                +:+ Itoa (StatusCode resp) in
                    match DecodeDetails J (RespBody resp) with
                    | Some details => (Err (head +:+ ", details: " +:+ details), [req])
                    | None => (Err head, [req])
                    end
                  else
                    match DecodeState J (RespBody resp) with
                    | Err e =>
                        (Err ("failed to decode set device state response for device "
                              +:+ Itoa (DeviceID state) +:+ ": " +:+ e), [req])
                    | Ok updatedState =>
                        (Ok (with_BuildingID (BuildingID state) updatedState), [req])
                    end
              end
          end
      end.

(** ** The tables of the specification

    The (label, code) pairs of the operation-mode, vane-vertical and
    vane-horizontal tables.  [op_mode_table] lists the labels of the code;
    [spec_operation_mode_table] is the table as the specification words it
    (Heat, Dry, Cool, FanOnly, Auto), and [spec_operation_mode_table_lower]
    the same names in the lower case the setters are called with. *)

Definition op_mode_table : list (string * Z) :=
  [("heat", 1); ("dry", 2); ("cool", 3); ("fan_only", 7); ("heat_cool", 8)].

Definition spec_operation_mode_table : list (string * Z) :=
  [("Heat", 1); ("Dry", 2); ("Cool", 3); ("FanOnly", 7); ("Auto", 8)].

Definition spec_operation_mode_table_lower : list (string * Z) :=
  [("heat", 1); ("dry", 2); ("cool", 3); ("fanonly", 7); ("auto", 8)].

Definition vane_vertical_table : list (string * Z) :=
  [("auto", 0); ("1", 1); ("2", 2); ("3", 3); ("4", 4); ("5", 5); ("swing", 7)].

Definition vane_horizontal_table : list (string * Z) :=
  [("auto", 0); ("1", 1); ("2", 2); ("3", 3); ("4", 4); ("5", 5);
   ("split", 8); ("swing", 12)].

(** Round trip of one (label, code) pair through a decoder and a setter:
    a state holding the code decodes to the label, and the setter called with
    the label succeeds and stores the code in the field. *)
Definition round_trip
    (decode : AtaDeviceState -> string)
    (encode : string -> AtaDeviceState -> AtaDeviceState * error)
    (put : Z -> AtaDeviceState -> AtaDeviceState)
    (get : AtaDeviceState -> Z)
    (s : AtaDeviceState) (entry : string * Z) : Prop :=
  decode (put (snd entry) s) = fst entry /\
  snd (encode (fst entry) s) = nil_error /\
  get (fst (encode (fst entry) s)) = snd entry /\
  decode (fst (encode (fst entry) s)) = fst entry.

Definition op_mode_round_trip : AtaDeviceState -> string * Z -> Prop :=
  round_trip OperationModeString SetOperationMode with_OperationMode OperationMode.

Definition vane_vertical_round_trip : AtaDeviceState -> string * Z -> Prop :=
  round_trip VaneVerticalString SetVaneVertical with_VaneVertical VaneVertical.

Definition vane_horizontal_round_trip : AtaDeviceState -> string * Z -> Prop :=
  round_trip VaneHorizontalString SetVaneHorizontal with_VaneHorizontal VaneHorizontal.

Definition labels (table : list (string * Z)) : list string := map fst table.
Definition codes (table : list (string * Z)) : list Z := map snd table.

(** The fan-speed "table" of the specification: ["auto"] is 0 and every
    other label is a positive integer passed through as its value, so the
    codes present in it are 0 and the positive integers. *)
Definition fan_speed_code_in_table (z : Z) : Prop := z = 0 \/ 0 < z.

(** ** The setters as one family

    A call of one of the six setters with its argument.  [call] runs it; the
    two setters that cannot fail return the [nil] error. *)
Inductive Setter : Type :=
  | CallSetPower (power : bool)
  | CallSetOperationMode (mode : string)
  | CallSetTargetTemperature (temp : float)
  | CallSetFanSpeedMode (speed : string)
  | CallSetVaneVertical (pos : string)
  | CallSetVaneHorizontal (pos : string).

Definition call (c : Setter) (s : AtaDeviceState) : AtaDeviceState * error :=
  match c with
  | CallSetPower power => (SetPower power s, nil_error)
  | CallSetOperationMode mode => SetOperationMode mode s
  | CallSetTargetTemperature temp => (SetTargetTemperature temp s, nil_error)
  | CallSetFanSpeedMode speed => SetFanSpeedMode speed s
  | CallSetVaneVertical pos => SetVaneVertical pos s
  | CallSetVaneHorizontal pos => SetVaneHorizontal pos s
  end.

(** The bit assignments as the specification lists them: power=0x01,
    mode=0x02, target-temp=0x04, fan-speed=0x08, vane-vertical=0x10,
    vane-horizontal=0x100; [setter_bit] is the position of that bit. *)
Definition setter_flag (c : Setter) : Z :=
  match c with
  | CallSetPower _ => 0x01
  | CallSetOperationMode _ => 0x02
  | CallSetTargetTemperature _ => 0x04
  | CallSetFanSpeedMode _ => 0x08
  | CallSetVaneVertical _ => 0x10
  | CallSetVaneHorizontal _ => 0x100
  end.

Definition setter_bit (c : Setter) : Z :=
  match c with
  | CallSetPower _ => 0
  | CallSetOperationMode _ => 1
  | CallSetTargetTemperature _ => 2
  | CallSetFanSpeedMode _ => 3
  | CallSetVaneVertical _ => 4
  | CallSetVaneHorizontal _ => 8
  end.

(** Two calls of the same setter, whatever their arguments. *)
Definition same_setter (c1 c2 : Setter) : bool :=
  setter_bit c1 =? setter_bit c2.

(** ** A transport to run the client against

    A JSON codec that writes the two write-side fields and a client whose
    transport answers every request with status 200 and an empty body. *)
Definition exampleJSON : JSON :=
  mkJSON
    (fun st => Ok ("{EffectiveFlags:" +:+ Itoa (EffectiveFlags st)
                   +:+ ",HasPendingCommand:"
                   +:+ (if HasPendingCommand st then "true" else "false") +:+ "}"))
    (fun _ => Ok zeroAtaDeviceState)
    (fun _ => None).

Definition exampleClient : Client :=
  mkClient "context-key" (fun _ => Ok (mkResponse 200 "")).

(** ** [LastCommunicationTime]

    [time.Parse] belongs to the Go standard library and is a parameter.  The
    slice expression [layout[:n]] panics at run time when [n] exceeds the
    length of [layout]; a call therefore either returns what [time.Parse]
    returned or panics. *)

Inductive outcome (A : Type) : Type :=
  | Returned (a : A)
  | Panicked.
Arguments Returned {A} a.
Arguments Panicked {A}.

(** [s[:n]] *)
Definition slice_prefix (s : string) (n : nat) : option string :=
  if (n <=? String.length s)%nat then Some (substring 0 n s) else None.

Definition LastCommunicationTime {Time : Type}
    (Parse : string -> string -> result Time) (s : AtaDeviceState)
  : outcome (result Time) :=
  let layout := "2006-01-02T15:04:05.000000" in
  let n := String.length (LastCommunication s) in
  if (String.length layout <? n)%nat then
    let layout := layout +:+ "Z" in
    match slice_prefix layout n with
    | Some l => Returned (Parse l (LastCommunication s))
    | None => Panicked
    end
  else if (n <? String.length layout)%nat then
    match slice_prefix layout n with
    | Some l => Returned (Parse l (LastCommunication s))
    | None => Panicked
    end
  else Returned (Parse layout (LastCommunication s)).

(** ** A sequence of setter calls

    A caller that runs setters one after the other and stops at the first
    error, as the test of [SetDeviceState] chains them. *)
Fixpoint calls (cs : list Setter) (s : AtaDeviceState) : AtaDeviceState * error :=
  match cs with
  | [] => (s, nil_error)
  | c :: rest =>
      match call c s with
      | (s', None) => calls rest s'
      | (s', Some e) => (s', Some e)
      end
  end.

(** The field assignment of a setter, given the code its argument was
    converted to (the argument itself for [SetPower] and
    [SetTargetTemperature], which convert nothing). *)
Definition assign (c : Setter) (code : Z) (s : AtaDeviceState) : AtaDeviceState :=
  match c with
  | CallSetPower power => with_Power power s
  | CallSetOperationMode _ => with_OperationMode code s
  | CallSetTargetTemperature temp => with_SetTemperature temp s
  | CallSetFanSpeedMode _ => with_SetFanSpeed code s
  | CallSetVaneVertical _ => with_VaneVertical code s
  | CallSetVaneHorizontal _ => with_VaneHorizontal code s
  end.

(** ** [device.go] and the device tree of [client.go] *)

Module device.
Record Device : Type := mkDevice {
  DeviceID : Z;
  BuildingID : Z;
  DeviceName : string;
  MacAddress : string;
  SerialNumber : string;
  AccessLevel : Z;
  DeviceType : Z;
  WifiSignalStrength : Z;
  TemperatureIncrement : float;
  MinTempHeat : float;
  MaxTempHeat : float;
  MinTempCoolDry : float;
  MaxTempCoolDry : float;
  MinTempAutomatic : float;
  MaxTempAutomatic : float
}.
End device.

Record Area : Type := mkArea {
  Area_Devices : list device.Device
}.

Record Floor : Type := mkFloor {
  Floor_Devices : list device.Device;
  Floor_Areas : list Area
}.

Record Structure : Type := mkStructure {
  Structure_Devices : list device.Device;
  Structure_Areas : list Area;
  Structure_Floors : list Floor
}.

Record Building : Type := mkBuilding {
  Building_Structure : Structure
}.

(** The body of every inner loop of [ListDevices]: append the device unless
    its id was visited, and mark the id visited.  The accumulator is the pair
    of [allDevices] and [visited]. *)
Definition visit (acc : list device.Device * gset Z) (d : device.Device)
  : list device.Device * gset Z :=
  if decide (device.DeviceID d ∈ acc.2) then acc
  else ((acc.1 ++ [d])%list, {[device.DeviceID d]} ∪ acc.2).

Definition visit_area (acc : list device.Device * gset Z) (area : Area)
  : list device.Device * gset Z :=
  foldl visit acc (Area_Devices area).

Definition visit_floor (acc : list device.Device * gset Z) (floor : Floor)
  : list device.Device * gset Z :=
  foldl visit_area (foldl visit acc (Floor_Devices floor)) (Floor_Areas floor).

Definition visit_building (acc : list device.Device * gset Z) (building : Building)
  : list device.Device * gset Z :=
  let structure := Building_Structure building in
  foldl visit_floor
    (foldl visit_area (foldl visit acc (Structure_Devices structure))
       (Structure_Areas structure))
    (Structure_Floors structure).

Definition collectDevices (buildings : list Building) : list device.Device :=
  (foldl visit_building ([], ∅) buildings).1.

(** [DecodeBuildings] is [json.NewDecoder(resp.Body).Decode(&buildings)]. *)
Definition ListDevices (J : JSON)
    (DecodeBuildings : string -> result (list Building)) (c : Client)
  : result (list device.Device) * list Request :=
  match NewRequest "GET" (baseURL +:+ "/User/ListDevices") "" with
  | Err e => (Err ("failed to create list devices request: " +:+ e), [])
  | Ok req0 =>
      let req := setHeaders c req0 in
      match httpClient c req with
      | Err e => (Err ("failed to execute list devices request: " +:+ e), [req])
      | Ok resp =>
          if negb (StatusCode resp =? StatusOK) then
            let head := "list devices failed with status code: "
                        +:+ Itoa (StatusCode resp) in
            match DecodeDetails J (RespBody resp) with
            | Some details => (Err (head +:+ ", details: " +:+ details), [req])
            | None => (Err head, [req])
            end
          else
            match DecodeBuildings (RespBody resp) with
            | Err e => (Err ("failed to decode list devices response: " +:+ e), [req])
            | Ok buildings => (Ok (collectDevices buildings), [req])
            end
      end
  end.

(** The devices of the tree in the order the loops of [ListDevices] reach
    them, duplicates included. *)
Definition area_devices (areas : list Area) : list device.Device :=
  concat (map Area_Devices areas).

Definition floor_devices (floor : Floor) : list device.Device :=
  Floor_Devices floor ++ area_devices (Floor_Areas floor).

Definition building_devices (building : Building) : list device.Device :=
  let structure := Building_Structure building in
  Structure_Devices structure ++ area_devices (Structure_Areas structure)
  ++ concat (map floor_devices (Structure_Floors structure)).

Definition tree_devices (buildings : list Building) : list device.Device :=
  concat (map building_devices buildings).

(** Keep the first device of every id, given the ids already seen. *)
Fixpoint first_of_each_id (seen : list Z) (l : list device.Device)
  : list device.Device :=
  match l with
  | [] => []
  | d :: rest =>
      if decide (device.DeviceID d ∈ seen) then first_of_each_id seen rest
      else d :: first_of_each_id (device.DeviceID d :: seen) rest
  end.

(** ** [Login]

    The environment, the marshalling of the request body and the decoding of
    the response are parameters.  A field of Go type [interface{}] is [None]
    for [nil] and otherwise carries its [%v] text. *)

Record LoginData : Type := mkLoginData {
  ContextKey : string
}.

Record LoginResponse : Type := mkLoginResponse {
  ErrorId : option string;
  LoginErrorCode : option string;
  LoginData_ : LoginData;
  LoginMinutes : Z;
  NextURLL : option string
}.

(** The map literal [body] of [Login]. *)
Record LoginBody : Type := mkLoginBody {
  Email : string;
  Password : string;
  Language : Z;
  AppVersion : string;
  Persist : bool;
  CaptchaResponse : option string
}.

Definition appVersion : string := "1.19.1.1".

Definition render (v : option string) : string :=
  match v with
  | Some text => text
  | None => "<nil>"
  end.

Definition Login (Getenv : string -> string)
    (MarshalBody : LoginBody -> result string)
    (Do : Request -> result Response)
    (J : JSON) (DecodeLogin : string -> result LoginResponse)
  : result Client * list Request :=
  let email := Getenv "MELCLOUD_EMAIL" in
  let password := Getenv "MELCLOUD_PASSWORD" in
  if String.eqb email "" || String.eqb password "" then
    (Err "MELCLOUD_EMAIL and MELCLOUD_PASSWORD environment variables must be set", [])
  else
    let body := mkLoginBody email password 0 appVersion true None in
    match MarshalBody body with
    | Err e => (Err ("failed to marshal login request body: " +:+ e), [])
    | Ok jsonBody =>
        match NewRequest "POST" (baseURL +:+ "/Login/ClientLogin") jsonBody with
        | Err e => (Err ("failed to create login request: " +:+ e), [])
        | Ok req0 =>
            let req := Header_Set "User-Agent" "melcloud-go"
                         (Header_Set "Content-Type" "application/json" req0) in
            match Do req with
            | Err e => (Err ("failed to execute login request: " +:+ e), [req])
            | Ok resp =>
                if negb (StatusCode resp =? StatusOK) then
                  let head := "login failed with status code: "
                              +:+ Itoa (StatusCode resp) in
                  match DecodeDetails J (RespBody resp) with
                  | Some details => (Err (head +:+ ", details: " +:+ details), [req])
                  | None => (Err head, [req])
                  end
                else
                  match DecodeLogin (RespBody resp) with
                  | Err e => (Err ("failed to decode login response: " +:+ e), [req])
                  | Ok loginResponse =>
                      if bool_decide (ErrorId loginResponse <> None)
                         || bool_decide (LoginErrorCode loginResponse <> None) then
                        (Err ("login API returned an error: ID="
                              +:+ render (ErrorId loginResponse) +:+ ", Code="
                              +:+ render (LoginErrorCode loginResponse)), [req])
                      else if String.eqb (ContextKey (LoginData_ loginResponse)) "" then
                        (Err "login response did not contain ContextKey", [req])
                      else
                        (Ok (mkClient (ContextKey (LoginData_ loginResponse)) Do), [req])
                  end
            end
        end
    end.

(** A device tree and a login environment to run the client against. *)
Definition exampleDevice (id : Z) (name : string) : device.Device :=
  device.mkDevice id 1 name "" "" 4 0 0 0.5 10 31 16 31 16 31.

Definition exampleBuildings : list Building :=
  [mkBuilding (mkStructure
     [exampleDevice 10 "hall"]
     [mkArea [exampleDevice 11 "kitchen"; exampleDevice 10 "hall again"]]
     [mkFloor [exampleDevice 12 "attic"] [mkArea [exampleDevice 11 "kitchen again"]]]);
   mkBuilding (mkStructure [exampleDevice 12 "attic again"; exampleDevice 13 "shed"] [] [])].

Definition exampleGetenv (name : string) : string :=
  if String.eqb name "MELCLOUD_EMAIL" then "user@example.org"
  else if String.eqb name "MELCLOUD_PASSWORD" then "secret" else "".

Definition exampleDecodeLogin (body : string) : result LoginResponse :=
  Ok (mkLoginResponse None None (mkLoginData "context-key") 525600 None).

(** * Properties *)

(** ** The integer range is closed under [|=] with a flag constant *)

Lemma int_range_lor (z c : Z) :
  int_range z -> 0 <= c <= maxInt -> int_range (Z.lor z c).
Proof.
  unfold int_range, minInt, maxInt. intros Hz Hc.
  destruct (Z.neg_nonneg_cases z) as [Hneg | Hpos].
  - assert (Z.lor z c < 0) by (apply Z.lor_neg; lia).
    assert (0 <= Z.land c (Z.lnot z)) by (apply Z.land_nonneg; lia).
    pose proof (Z.sub_lor_l_same_l c z). lia.
  - assert (0 <= Z.lor z c) by (apply Z.lor_nonneg; lia).
    split; [lia |].
    destruct (Z.eq_dec (Z.lor z c) 0) as [-> | Hnz]; [lia |].
    assert (Z.lor z c < 2 ^ 63); [| lia].
    apply Z.log2_lt_pow2; [lia |].
    rewrite Z.log2_lor by lia.
    apply Z.max_lub_lt.
    + destruct (Z.eq_dec z 0) as [-> | ?]; [reflexivity |].
      apply Z.log2_lt_pow2; lia.
    + destruct (Z.eq_dec c 0) as [-> | ?]; [reflexivity |].
      apply Z.log2_lt_pow2; lia.
Qed.

(** ** [strconv]: [Atoi] reads back what [Itoa] prints *)

Lemma parse_digits_string_of_uint (d : Decimal.uint) (acc : Z) :
  parse_digits acc (NilEmpty.string_of_uint d) = Some (uint_value acc d).
Proof.
  revert acc. induction d; intros acc; simpl; rewrite ?IHd; reflexivity.
Qed.

Lemma of_uint_acc_value (d : Decimal.uint) (acc : positive) :
  Z.pos (Pos.of_uint_acc d acc) = uint_value (Z.pos acc) d.
Proof.
  revert acc. induction d; intros acc; simpl; try reflexivity;
    rewrite IHd; f_equal; lia.
Qed.

Lemma of_uint_value (d : Decimal.uint) :
  Z.of_N (Pos.of_uint d) = uint_value 0 d.
Proof.
  induction d; simpl; try assumption; try reflexivity;
    rewrite of_uint_acc_value; reflexivity.
Qed.

Lemma uint_value_to_uint (p : positive) :
  uint_value 0 (Pos.to_uint p) = Z.pos p.
Proof.
  rewrite <- of_uint_value, DecimalPos.Unsigned.of_to. reflexivity.
Qed.

(** A printed numeral starts with a digit. *)
Lemma string_of_uint_head (d : Decimal.uint) :
  d <> Nil ->
  exists c rest, NilEmpty.string_of_uint d = String c rest /\ is_digit c = true.
Proof.
  destruct d; intros Hd; try congruence; simpl; eexists _, _; split;
    reflexivity.
Qed.

Lemma NilZero_string_of_uint_nonnil (d : Decimal.uint) :
  d <> Nil -> NilZero.string_of_uint d = NilEmpty.string_of_uint d.
Proof. destruct d; intros Hd; congruence || reflexivity. Qed.

Lemma is_digit_not_sign (c : ascii) :
  is_digit c = true -> Ascii.eqb c "+" = false /\ Ascii.eqb c "-" = false.
Proof.
  intros H. split; apply Ascii.eqb_neq; intros ->; discriminate H.
Qed.

Lemma Itoa_pos (p : positive) :
  exists c rest,
    Itoa (Z.pos p) = String c rest /\ is_digit c = true /\
    parse_digits 0 (String c rest) = Some (Z.pos p).
Proof.
  pose proof (DecimalPos.Unsigned.to_uint_nonnil p) as Hn.
  destruct (string_of_uint_head _ Hn) as (c & rest & Heq & Hc).
  exists c, rest. repeat split; [| exact Hc |].
  - unfold Itoa.
    change (Z.to_int (Z.pos p)) with (Decimal.Pos (Pos.to_uint p)).
    cbn [NilZero.string_of_int].
    rewrite (NilZero_string_of_uint_nonnil _ Hn). exact Heq.
  - rewrite <- Heq, parse_digits_string_of_uint, uint_value_to_uint.
    reflexivity.
Qed.

Lemma Itoa_neg (p : positive) :
  exists c rest,
    Itoa (Z.neg p) = String "-" (String c rest) /\ is_digit c = true /\
    parse_digits 0 (String c rest) = Some (Z.pos p).
Proof.
  destruct (Itoa_pos p) as (c & rest & Heq & Hc & Hp).
  exists c, rest. split; [| auto].
  unfold Itoa in *.
  change (Z.to_int (Z.neg p)) with (Decimal.Neg (Pos.to_uint p)).
  change (Z.to_int (Z.pos p)) with (Decimal.Pos (Pos.to_uint p)) in Heq.
  cbn [NilZero.string_of_int] in *. rewrite Heq. reflexivity.
Qed.

(** [Atoi] on a string that starts with a digit, and on a signed one. *)
Lemma Atoi_digit_head (c : ascii) (rest : string) :
  is_digit c = true ->
  Atoi (String c rest) =
    match parse_digits 0 (String c rest) with
    | None => None
    | Some un => if (minInt <=? un) && (un <=? maxInt) then Some un else None
    end.
Proof.
  intros Hc. destruct (is_digit_not_sign _ Hc) as [Hplus Hminus].
  unfold Atoi. cbv zeta. rewrite Hplus, Hminus. reflexivity.
Qed.

Lemma Atoi_minus (c : ascii) (rest : string) :
  Atoi (String "-" (String c rest)) =
    match parse_digits 0 (String c rest) with
    | None => None
    | Some un => if (minInt <=? - un) && (- un <=? maxInt) then Some (- un) else None
    end.
Proof. reflexivity. Qed.

Lemma Atoi_Itoa (z : Z) : int_range z -> Atoi (Itoa z) = Some z.
Proof.
  unfold int_range. intros Hr.
  assert (Hb : (minInt <=? z) && (z <=? maxInt) = true).
  { apply andb_true_intro; split; apply Z.leb_le; lia. }
  destruct z as [| p | p].
  - reflexivity.
  - destruct (Itoa_pos p) as (c & rest & -> & Hc & Hp).
    rewrite (Atoi_digit_head _ _ Hc), Hp, Hb. reflexivity.
  - destruct (Itoa_neg p) as (c & rest & -> & Hc & Hp).
    rewrite Atoi_minus, Hp.
    change (- Z.pos p) with (Z.neg p). rewrite Hb. reflexivity.
Qed.

Example Atoi_examples :
  Atoi "3" = Some 3 /\ Atoi "+7" = Some 7 /\ Atoi "007" = Some 7 /\
  Atoi "-3" = Some (-3) /\ Atoi "0" = Some 0 /\
  Atoi "" = None /\ Atoi "-" = None /\ Atoi "3 " = None /\ Atoi "1_000" = None /\
  Atoi "9223372036854775807" = Some maxInt /\
  Atoi "9223372036854775808" = None /\
  Atoi "-9223372036854775808" = Some minInt.
Proof. repeat split; reflexivity. Qed.

Example Itoa_examples :
  Itoa 0 = "0" /\ Itoa 7 = "7" /\ Itoa (-3) = "-3" /\ Itoa 120 = "120".
Proof. repeat split; reflexivity. Qed.

(** The first byte of a printed integer is a digit or the minus sign. *)
Lemma Itoa_head (z : Z) :
  exists c rest, Itoa z = String c rest /\ (is_digit c = true \/ c = "-"%char).
Proof.
  destruct z as [| p | p].
  - exists "0"%char, "". auto.
  - destruct (Itoa_pos p) as (c & rest & -> & Hc & _). eauto.
  - destruct (Itoa_neg p) as (c & rest & -> & _ & _). eauto.
Qed.

Lemma Itoa_not_unknown (z : Z) : Itoa z <> "unknown".
Proof.
  destruct (Itoa_head z) as (c & rest & -> & [Hc | ->]); [| discriminate].
  intros [= -> _]. discriminate Hc.
Qed.

Lemma Itoa_not_auto (z : Z) : Itoa z <> "auto".
Proof.
  destruct (Itoa_head z) as (c & rest & -> & [Hc | ->]); [| discriminate].
  intros [= -> _]. discriminate Hc.
Qed.

(** ** The codec tables *)

(** Lookups in the literal tables, by the keys they were built from. *)
Ltac table_lookup :=
  repeat (rewrite lookup_insert; case_decide; subst; try congruence);
  rewrite ?lookup_empty; try congruence.

Ltac unfold_tables :=
  unfold opModeIntToString, opModeStringToInt, vaneVertIntToString,
    vaneVertStringToInt, vaneHorizIntToString, vaneHorizStringToInt,
    OpModeHeat, OpModeDry, OpModeCool, OpModeFanOnly, OpModeHeatCool,
    VaneVertAuto, VaneVert1, VaneVert2, VaneVert3, VaneVert4, VaneVert5,
    VaneVertSwing, VaneHorizAuto, VaneHoriz1, VaneHoriz2, VaneHoriz3,
    VaneHoriz4, VaneHoriz5, VaneHorizSplit, VaneHorizSwing, ModeHeat, ModeDry,
    ModeCool, ModeFanOnly, ModeHeatCool, VaneAuto, VaneSwing, VaneSplit.

(** A concrete key differs from every key of a concrete list. *)
Ltac not_in_list :=
  cbn; repeat (apply not_elem_of_cons; split; [discriminate |]);
  apply not_elem_of_nil.

(** A key outside a table is not found. *)
Ltac absent_key H :=
  cbn in H; repeat (apply not_elem_of_cons in H as [? H]);
  unfold_tables; table_lookup.

Lemma opModeIntToString_absent (z : Z) :
  z ∉ codes op_mode_table -> opModeIntToString !! z = None.
Proof. intros H. absent_key H. Qed.

Lemma opModeStringToInt_absent (l : string) :
  l ∉ labels op_mode_table -> opModeStringToInt !! l = None.
Proof. intros H. absent_key H. Qed.

Lemma vaneVertIntToString_absent (z : Z) :
  z ∉ codes vane_vertical_table -> vaneVertIntToString !! z = None.
Proof. intros H. absent_key H. Qed.

Lemma vaneVertStringToInt_absent (l : string) :
  l ∉ labels vane_vertical_table -> vaneVertStringToInt !! l = None.
Proof. intros H. absent_key H. Qed.

Lemma vaneHorizIntToString_absent (z : Z) :
  z ∉ codes vane_horizontal_table -> vaneHorizIntToString !! z = None.
Proof. intros H. absent_key H. Qed.

Lemma vaneHorizStringToInt_absent (l : string) :
  l ∉ labels vane_horizontal_table -> vaneHorizStringToInt !! l = None.
Proof. intros H. absent_key H. Qed.

(** The forward and the backward table of each field hold the same pairs. *)
Lemma op_mode_tables_inverse (l : string) (z : Z) :
  opModeStringToInt !! l = Some z <-> opModeIntToString !! z = Some l.
Proof.
  unfold_tables. split; intros H;
    repeat (rewrite lookup_insert in H; case_decide; subst;
            [injection H as <-; reflexivity |]);
    rewrite lookup_empty in H; discriminate.
Qed.

Lemma vane_vertical_tables_inverse (l : string) (z : Z) :
  vaneVertStringToInt !! l = Some z <-> vaneVertIntToString !! z = Some l.
Proof.
  unfold_tables. split; intros H;
    repeat (rewrite lookup_insert in H; case_decide; subst;
            [injection H as <-; reflexivity |]);
    rewrite lookup_empty in H; discriminate.
Qed.

Lemma vane_horizontal_tables_inverse (l : string) (z : Z) :
  vaneHorizStringToInt !! l = Some z <-> vaneHorizIntToString !! z = Some l.
Proof.
  unfold_tables. split; intros H;
    repeat (rewrite lookup_insert in H; case_decide; subst;
            [injection H as <-; reflexivity |]);
    rewrite lookup_empty in H; discriminate.
Qed.

(** ** Round trip of the tables *)

(** C1 (as amended): for every (label, code) pair of the operation-mode
    table with the labels the code uses ("heat"=1, "dry"=2, "cool"=3,
    "fan_only"=7, "heat_cool"=8) and of the vane-vertical and vane-horizontal
    tables, a state holding the code decodes to the label, and the setter
    called with the label succeeds and stores the code, from any state. *)
Theorem C1_round_trip_tables (s : AtaDeviceState) :
  Forall (op_mode_round_trip s) op_mode_table /\
  Forall (vane_vertical_round_trip s) vane_vertical_table /\
  Forall (vane_horizontal_round_trip s) vane_horizontal_table.
Proof.
  unfold op_mode_table, vane_vertical_table, vane_horizontal_table.
  repeat split;
    repeat (apply Forall_cons; split; [repeat split; reflexivity |]);
    apply Forall_nil_2.
Qed.

(** C1, counterexample: the pair (Auto, 8) of the specification's
    operation-mode table does not round trip, neither capitalised nor in
    lower case: code 8 decodes to "heat_cool", and [SetOperationMode] rejects
    "Auto" and "auto" and leaves the state as it was. *)
Lemma C1_auto_label_not_round_trip :
  ~ Forall (op_mode_round_trip zeroAtaDeviceState) spec_operation_mode_table /\
  ~ Forall (op_mode_round_trip zeroAtaDeviceState) spec_operation_mode_table_lower /\
  OperationModeString (with_OperationMode 8 zeroAtaDeviceState) = "heat_cool" /\
  SetOperationMode "Auto" zeroAtaDeviceState
    = (zeroAtaDeviceState, Some "invalid operation mode: Auto") /\
  SetOperationMode "auto" zeroAtaDeviceState
    = (zeroAtaDeviceState, Some "invalid operation mode: auto").
Proof.
  repeat split; try reflexivity.
  - intros H. rewrite Forall_forall in H.
    destruct (H ("Auto", 8)) as [Hdec _]; [set_solver |].
    vm_compute in Hdec. discriminate Hdec.
  - intros H. rewrite Forall_forall in H.
    destruct (H ("auto", 8)) as [Hdec _]; [set_solver |].
    vm_compute in Hdec. discriminate Hdec.
Qed.

(** ** Errors of the setters *)

(** C2: a string-accepting setter called with a string its table does not
    recognise returns the error naming the field followed by the offending
    string, and the state it returns is the state it was given: no field and
    no flag bit changes.  For the fan speed, "not recognised" is: not "auto"
    and not a string that [Atoi] reads as a positive integer. *)
Theorem C2_invalid_input_leaves_state (s : AtaDeviceState) (v : string) :
  (v ∉ labels op_mode_table ->
   SetOperationMode v s = (s, Some ("invalid operation mode: " +:+ v))) /\
  (v <> "auto" -> (forall n, Atoi v = Some n -> n <= 0) ->
   SetFanSpeedMode v s = (s, Some ("invalid fan speed: " +:+ v))) /\
  (v ∉ labels vane_vertical_table ->
   SetVaneVertical v s = (s, Some ("invalid vertical vane position: " +:+ v))) /\
  (v ∉ labels vane_horizontal_table ->
   SetVaneHorizontal v s = (s, Some ("invalid horizontal vane position: " +:+ v))).
Proof.
  split; [| split; [| split]].
  - intros H. unfold SetOperationMode.
    rewrite (opModeStringToInt_absent _ H). reflexivity.
  - intros Hne Hatoi. unfold SetFanSpeedMode, FanAuto.
    destruct (String.eqb_spec v "auto") as [-> | _]; [congruence |].
    destruct (Atoi v) as [n |] eqn:Hn; [| reflexivity].
    specialize (Hatoi n eq_refl).
    destruct (Z.ltb_spec 0 n); [lia | reflexivity].
  - intros H. unfold SetVaneVertical.
    rewrite (vaneVertStringToInt_absent _ H). reflexivity.
  - intros H. unfold SetVaneHorizontal.
    rewrite (vaneHorizStringToInt_absent _ H). reflexivity.
Qed.

Lemma C2_invalid_input_witness :
  SetOperationMode "turbo" zeroAtaDeviceState
    = (zeroAtaDeviceState, Some "invalid operation mode: turbo") /\
  SetFanSpeedMode "turbo" zeroAtaDeviceState
    = (zeroAtaDeviceState, Some "invalid fan speed: turbo") /\
  SetVaneVertical "turbo" zeroAtaDeviceState
    = (zeroAtaDeviceState, Some "invalid vertical vane position: turbo") /\
  SetVaneHorizontal "turbo" zeroAtaDeviceState
    = (zeroAtaDeviceState, Some "invalid horizontal vane position: turbo").
Proof.
  destruct (C2_invalid_input_leaves_state zeroAtaDeviceState "turbo")
    as (H1 & H2 & H3 & H4).
  split; [| split; [| split]].
  - apply H1. not_in_list.
  - apply H2; [discriminate | intros n Hn; vm_compute in Hn; discriminate Hn].
  - apply H3. not_in_list.
  - apply H4. not_in_list.
Defined.

(** ** Decoding codes outside the tables *)

(** C4 (as amended): the table-backed decoders [OperationModeString],
    [VaneVerticalString] and [VaneHorizontalString] return "unknown" for
    every code that is not in their table; [FanSpeedString] has no sentinel:
    for a code outside the fan-speed table (a negative integer) it returns
    the decimal string of the code, which is never "unknown".  All four are
    total functions of the state. *)
Theorem C4_decode_outside_table (s : AtaDeviceState) :
  (OperationMode s ∉ codes op_mode_table -> OperationModeString s = "unknown") /\
  (VaneVertical s ∉ codes vane_vertical_table -> VaneVerticalString s = "unknown") /\
  (VaneHorizontal s ∉ codes vane_horizontal_table ->
   VaneHorizontalString s = "unknown") /\
  (~ fan_speed_code_in_table (SetFanSpeed s) ->
   FanSpeedString s = Itoa (SetFanSpeed s) /\ FanSpeedString s <> "unknown").
Proof.
  split; [| split; [| split]].
  - intros H. unfold OperationModeString.
    rewrite (opModeIntToString_absent _ H). reflexivity.
  - intros H. unfold VaneVerticalString.
    rewrite (vaneVertIntToString_absent _ H). reflexivity.
  - intros H. unfold VaneHorizontalString.
    rewrite (vaneHorizIntToString_absent _ H). reflexivity.
  - intros H. unfold FanSpeedString, FanSpeedAuto.
    destruct (Z.eqb_spec (SetFanSpeed s) 0) as [E | _].
    + exfalso. apply H. left. exact E.
    + split; [reflexivity | apply Itoa_not_unknown].
Qed.

Lemma C4_decode_outside_table_witness :
  let s := with_SetFanSpeed (-3)
             (with_VaneHorizontal 6 (with_VaneVertical 6
               (with_OperationMode 4 zeroAtaDeviceState))) in
  OperationModeString s = "unknown" /\
  VaneVerticalString s = "unknown" /\
  VaneHorizontalString s = "unknown" /\
  FanSpeedString s = "-3".
Proof.
  intros s.
  destruct (C4_decode_outside_table s) as (H1 & H2 & H3 & H4).
  split; [| split; [| split]].
  - apply H1. not_in_list.
  - apply H2. not_in_list.
  - apply H3. not_in_list.
  - apply H4. unfold fan_speed_code_in_table. cbn. lia.
Defined.

(** C4, counterexample: -3 is not a code of the fan-speed table, and
    [FanSpeedString] decodes it to "-3", not to "unknown". *)
Lemma C4_fan_speed_has_no_sentinel :
  ~ fan_speed_code_in_table (-3) /\
  FanSpeedString (with_SetFanSpeed (-3) zeroAtaDeviceState) = "-3" /\
  ~ (forall s : AtaDeviceState,
       ~ fan_speed_code_in_table (SetFanSpeed s) -> FanSpeedString s = "unknown").
Proof.
  assert (Hout : ~ fan_speed_code_in_table (-3))
    by (unfold fan_speed_code_in_table; lia).
  repeat split; [exact Hout |].
  intros H.
  specialize (H (with_SetFanSpeed (-3) zeroAtaDeviceState) Hout).
  vm_compute in H. discriminate H.
Qed.

(** ** The change flags *)

(** Every setter, when it succeeds, ORs its flag into the flags. *)
Lemma call_flags (c : Setter) (s s' : AtaDeviceState) :
  call c s = (s', nil_error) ->
  EffectiveFlags s' = Z.lor (EffectiveFlags s) (setter_flag c).
Proof.
  destruct c as [power | mode | temp | speed | pos | pos]; cbn [call].
  - intros [= <-]. reflexivity.
  - unfold SetOperationMode.
    destruct (opModeStringToInt !! mode); intros [= <-]. reflexivity.
  - intros [= <-]. reflexivity.
  - unfold SetFanSpeedMode.
    destruct (String.eqb speed FanAuto); [intros [= <-]; reflexivity |].
    destruct (Atoi speed) as [n |]; [| discriminate].
    destruct (0 <? n); intros [= <-]. reflexivity.
  - unfold SetVaneVertical.
    destruct (vaneVertStringToInt !! pos); intros [= <-]. reflexivity.
  - unfold SetVaneHorizontal.
    destruct (vaneHorizStringToInt !! pos); intros [= <-]. reflexivity.
Qed.

Lemma setter_flag_bit (c : Setter) : setter_flag c = 2 ^ setter_bit c.
Proof. destruct c; reflexivity. Qed.

Lemma setter_bit_nonneg (c : Setter) : 0 <= setter_bit c.
Proof. destruct c; cbn; lia. Qed.

Lemma same_setter_flag (c1 c2 : Setter) :
  same_setter c1 c2 = true -> setter_flag c2 = setter_flag c1.
Proof.
  unfold same_setter. intros H%Z.eqb_eq.
  rewrite !setter_flag_bit, H. reflexivity.
Qed.

(** The flags stay a 64-bit [int] under every setter. *)
Lemma call_flags_in_range (c : Setter) (s s' : AtaDeviceState) :
  int_range (EffectiveFlags s) -> call c s = (s', nil_error) ->
  int_range (EffectiveFlags s').
Proof.
  intros Hr Hcall. rewrite (call_flags _ _ _ Hcall).
  apply int_range_lor; [exact Hr |].
  unfold maxInt. destruct c; cbn; lia.
Qed.

(** C5: from any flags, a successful setter call yields the old flags ORed
    with the fixed bit of its field (power=0x01, mode=0x02, target-temp=0x04,
    fan-speed=0x08, vane-vertical=0x10, vane-horizontal=0x100): that bit is
    set and every other bit is as it was; a further successful call of the
    same setter, with any argument, leaves the flags unchanged. *)
Theorem C5_setter_ors_its_bit (c : Setter) (s s' : AtaDeviceState) :
  call c s = (s', nil_error) ->
  EffectiveFlags s' = Z.lor (EffectiveFlags s) (setter_flag c) /\
  (forall i : Z,
     Z.testbit (EffectiveFlags s') i =
       if i =? setter_bit c then true else Z.testbit (EffectiveFlags s) i) /\
  (forall (c2 : Setter) (s'' : AtaDeviceState),
     same_setter c c2 = true -> call c2 s' = (s'', nil_error) ->
     EffectiveFlags s'' = EffectiveFlags s').
Proof.
  intros Hcall. pose proof (call_flags _ _ _ Hcall) as Hflags.
  split; [exact Hflags | split].
  - intros i. rewrite Hflags, Z.lor_spec, setter_flag_bit.
    rewrite (Z.pow2_bits_eqb _ _ (setter_bit_nonneg c)).
    rewrite (Z.eqb_sym (setter_bit c) i).
    destruct (i =? setter_bit c); [apply orb_true_r | apply orb_false_r].
  - intros c2 s'' Hsame Hcall2.
    rewrite (call_flags _ _ _ Hcall2), (same_setter_flag _ _ Hsame), Hflags.
    rewrite <- Z.lor_assoc, Z.lor_diag. reflexivity.
Qed.

Lemma C5_setter_ors_its_bit_witness :
  let s := with_EffectiveFlags 0x11 zeroAtaDeviceState in
  let s' := fst (call (CallSetVaneHorizontal "swing") s) in
  EffectiveFlags s' = Z.lor 0x11 0x100 /\
  (forall i : Z,
     Z.testbit (EffectiveFlags s') i =
       if i =? 8 then true else Z.testbit 0x11 i) /\
  (forall (c2 : Setter) (s'' : AtaDeviceState),
     same_setter (CallSetVaneHorizontal "swing") c2 = true ->
     call c2 s' = (s'', nil_error) ->
     EffectiveFlags s'' = EffectiveFlags s').
Proof.
  intros s s'.
  apply (C5_setter_ors_its_bit (CallSetVaneHorizontal "swing") s s').
  reflexivity.
Defined.

(** ** The fan speed *)

Lemma SetFanSpeedMode_not_auto (s : AtaDeviceState) (speed : string) :
  speed <> "auto" ->
  SetFanSpeedMode speed s =
    match Atoi speed with
    | Some n =>
        if 0 <? n then (or_flag FlagFanSpeed (with_SetFanSpeed n s), nil_error)
        else (s, Errorf "invalid fan speed: " speed)
    | None => (s, Errorf "invalid fan speed: " speed)
    end.
Proof.
  intros Hne. unfold SetFanSpeedMode, FanAuto.
  destruct (String.eqb_spec speed "auto"); [contradiction | reflexivity].
Qed.

(** The outcomes of [SetFanSpeedMode], as pairs of state and error. *)
Lemma SetFanSpeedMode_cases (s : AtaDeviceState) (speed : string) :
  SetFanSpeedMode "auto" s
    = (or_flag FlagFanSpeed (with_SetFanSpeed 0 s), nil_error) /\
  (speed <> "auto" ->
     (snd (SetFanSpeedMode speed s) = nil_error <->
        exists n, Atoi speed = Some n /\ 0 < n) /\
     (forall n, Atoi speed = Some n -> 0 < n ->
        SetFanSpeedMode speed s
          = (or_flag FlagFanSpeed (with_SetFanSpeed n s), nil_error)) /\
     ((forall n, Atoi speed = Some n -> n <= 0) ->
        SetFanSpeedMode speed s = (s, Some ("invalid fan speed: " +:+ speed)))) /\
  (forall n, 0 < n <= maxInt ->
     SetFanSpeedMode (Itoa n) s
       = (or_flag FlagFanSpeed (with_SetFanSpeed n s), nil_error)) /\
  SetFanSpeedMode "0" s = (s, Some "invalid fan speed: 0") /\
  SetFanSpeedMode "-3" s = (s, Some "invalid fan speed: -3").
Proof.
  split; [reflexivity | split; [| split; [| split; reflexivity]]].
  - intros Hne. rewrite (SetFanSpeedMode_not_auto _ _ Hne).
    destruct (Atoi speed) as [n |] eqn:Hn.
    + destruct (Z.ltb_spec 0 n) as [Hpos | Hle].
      * split; [| split].
        -- split; [intros _; exists n; auto | reflexivity].
        -- intros m [= <-] _. reflexivity.
        -- intros H. specialize (H n eq_refl). lia.
      * split; [| split].
        -- split; [discriminate | intros (m & [= <-] & Hm); lia].
        -- intros m [= <-] Hm. lia.
        -- reflexivity.
    + split; [| split].
      * split; [discriminate | intros (m & Hm & _); discriminate Hm].
      * intros m Hm. discriminate Hm.
      * reflexivity.
  - intros n [Hpos Hmax].
    rewrite (SetFanSpeedMode_not_auto _ _ (Itoa_not_auto n)).
    rewrite Atoi_Itoa by (unfold int_range, minInt; lia).
    destruct (Z.ltb_spec 0 n); [reflexivity | lia].
Qed.


(** C6: [SetFanSpeedMode] stores code 0 for "auto"; any other string is
    accepted exactly when [Atoi] reads it as an integer greater than 0, and
    then that integer is stored; there is no upper bound: the decimal string
    of every positive [int] is accepted and stored as itself; the other
    strings, "0" and "-3" among them, are rejected with the
    "invalid fan speed" error and the state is left as it was.  The last
    three conjuncts read the [SetFanSpeed] field and the flags of the state
    the setter returns. *)
Theorem C6_fan_speed_encode (s : AtaDeviceState) (speed : string) :
  SetFanSpeedMode "auto" s
    = (or_flag FlagFanSpeed (with_SetFanSpeed 0 s), nil_error) /\
  (speed <> "auto" ->
     (snd (SetFanSpeedMode speed s) = nil_error <->
        exists n, Atoi speed = Some n /\ 0 < n) /\
     (forall n, Atoi speed = Some n -> 0 < n ->
        SetFanSpeedMode speed s
          = (or_flag FlagFanSpeed (with_SetFanSpeed n s), nil_error)) /\
     ((forall n, Atoi speed = Some n -> n <= 0) ->
        SetFanSpeedMode speed s = (s, Some ("invalid fan speed: " +:+ speed)))) /\
  (forall n, 0 < n <= maxInt ->
     SetFanSpeedMode (Itoa n) s
       = (or_flag FlagFanSpeed (with_SetFanSpeed n s), nil_error)) /\
  SetFanSpeedMode "0" s = (s, Some "invalid fan speed: 0") /\
  SetFanSpeedMode "-3" s = (s, Some "invalid fan speed: -3") /\
  (SetFanSpeed (fst (SetFanSpeedMode "auto" s)) = 0 /\
   EffectiveFlags (fst (SetFanSpeedMode "auto" s))
     = Z.lor (EffectiveFlags s) 0x08) /\
  (speed <> "auto" ->
   forall n, Atoi speed = Some n -> 0 < n ->
     SetFanSpeed (fst (SetFanSpeedMode speed s)) = n /\
     EffectiveFlags (fst (SetFanSpeedMode speed s))
       = Z.lor (EffectiveFlags s) 0x08) /\
  (forall n, 0 < n <= maxInt ->
     SetFanSpeed (fst (SetFanSpeedMode (Itoa n) s)) = n).
Proof.
  destruct (SetFanSpeedMode_cases s speed) as (Hauto & Hother & Hitoa & H0 & H3).
  repeat (split; [assumption |]).
  split; [| split].
  - rewrite Hauto. split; reflexivity.
  - intros Hne n Hn Hpos.
    destruct (Hother Hne) as (_ & Hstore & _).
    rewrite (Hstore n Hn Hpos). split; reflexivity.
  - intros n Hn. rewrite (Hitoa n Hn). reflexivity.
Qed.

Lemma C6_fan_speed_encode_witness :
  ((snd (SetFanSpeedMode "3" zeroAtaDeviceState) = nil_error <->
      exists n, Atoi "3" = Some n /\ 0 < n) /\
   (forall n, Atoi "3" = Some n -> 0 < n ->
      SetFanSpeedMode "3" zeroAtaDeviceState
        = (or_flag FlagFanSpeed (with_SetFanSpeed n zeroAtaDeviceState), nil_error)) /\
   ((forall n, Atoi "3" = Some n -> n <= 0) ->
      SetFanSpeedMode "3" zeroAtaDeviceState
        = (zeroAtaDeviceState, Some "invalid fan speed: 3"))) /\
  SetFanSpeed (fst (SetFanSpeedMode "3" zeroAtaDeviceState)) = 3 /\
  EffectiveFlags (fst (SetFanSpeedMode "3" zeroAtaDeviceState)) = 8.
Proof.
  destruct (C6_fan_speed_encode zeroAtaDeviceState "3")
    as (_ & Hother & _ & _ & _ & _ & Hread & _).
  split; [apply Hother; discriminate |].
  apply (Hread ltac:(discriminate) 3 eq_refl). lia.
Defined.

(** C9: for every nonzero fan-speed code, negative ones included,
    [FanSpeedString] returns the decimal string of the code ([Atoi] reads the
    code back from it) and never "unknown"; -3 gives "-3"; the result is
    "auto" exactly when the code is 0. *)
Theorem C9_fan_speed_decode_passes_through (s : AtaDeviceState) :
  (SetFanSpeed s <> 0 ->
     FanSpeedString s = Itoa (SetFanSpeed s) /\
     FanSpeedString s <> "unknown" /\
     (int_range (SetFanSpeed s) -> Atoi (FanSpeedString s) = Some (SetFanSpeed s))) /\
  (FanSpeedString s = "auto" <-> SetFanSpeed s = 0) /\
  FanSpeedString (with_SetFanSpeed (-3) s) = "-3".
Proof.
  unfold FanSpeedString, FanSpeedAuto, FanAuto.
  split; [| split; [| reflexivity]].
  - intros Hnz. destruct (Z.eqb_spec (SetFanSpeed s) 0); [contradiction |].
    split; [reflexivity | split; [apply Itoa_not_unknown | apply Atoi_Itoa]].
  - destruct (Z.eqb_spec (SetFanSpeed s) 0) as [E | Hnz].
    + split; auto.
    + split; [intros H; destruct (Itoa_not_auto _ H) | contradiction].
Qed.

Lemma C9_fan_speed_decode_witness :
  let s := with_SetFanSpeed (-12) zeroAtaDeviceState in
  FanSpeedString s = Itoa (-12) /\
  FanSpeedString s <> "unknown" /\
  (int_range (-12) -> Atoi (FanSpeedString s) = Some (-12)).
Proof.
  intros s.
  apply (C9_fan_speed_decode_passes_through s). discriminate.
Defined.

(** ** The worked example *)

(** C8: from a state with no flag set, [SetOperationMode("cool")] followed by
    [SetTargetTemperature(22.0)] succeeds and gives operation mode 3, target
    temperature 22.0 and flags 0x02 | 0x04 = 0x06. *)
Theorem C8_cool_then_22 (s : AtaDeviceState) :
  EffectiveFlags s = 0 ->
  let r := SetOperationMode "cool" s in
  let s2 := SetTargetTemperature 22.0%float (fst r) in
  snd r = nil_error /\
  OperationMode s2 = 3 /\
  SetTemperature s2 = 22.0%float /\
  EffectiveFlags s2 = Z.lor 0x02 0x04 /\
  EffectiveFlags s2 = 0x06.
Proof.
  intros Hflags r s2.
  assert (Hr : r = (or_flag FlagOperationMode (with_OperationMode 3 s), nil_error))
    by reflexivity.
  subst s2. rewrite Hr. cbn. rewrite Hflags. repeat split; reflexivity.
Qed.

Lemma C8_cool_then_22_witness :
  let r := SetOperationMode "cool" zeroAtaDeviceState in
  let s2 := SetTargetTemperature 22.0%float (fst r) in
  snd r = nil_error /\
  OperationMode s2 = 3 /\
  SetTemperature s2 = 22.0%float /\
  EffectiveFlags s2 = Z.lor 0x02 0x04 /\
  EffectiveFlags s2 = 0x06.
Proof.
  apply (C8_cool_then_22 zeroAtaDeviceState). reflexivity.
Defined.

(** ** The write guard of [SetDeviceState] *)

(** The state a read returns carries the flags of the decoded response:
    [GetDeviceState] only restores the building id. *)
Lemma GetDeviceState_fresh (J : JSON) (c : Client) (deviceID buildingID : Z)
    (fresh : AtaDeviceState) (sent : list Request) :
  GetDeviceState J c deviceID buildingID = (Ok fresh, sent) ->
  exists resp decoded,
    DecodeState J (RespBody resp) = Ok decoded /\
    fresh = with_BuildingID buildingID decoded /\
    EffectiveFlags fresh = EffectiveFlags decoded.
Proof.
  unfold GetDeviceState, NewRequest.
  destruct (httpClient c _) as [resp | e]; [| discriminate].
  destruct (negb (StatusCode resp =? StatusOK)).
  - destruct (DecodeDetails J (RespBody resp)); discriminate.
  - destruct (DecodeState J (RespBody resp)) as [decoded | e] eqn:Hdec;
      [| discriminate].
    intros [= <- _]. exists resp, decoded. auto.
Qed.

(** A state whose flags are zero is rejected by [SetDeviceState] with the
    no-pending-changes error, and no request is handed to the transport. *)
Lemma SetDeviceState_no_flags (J : JSON) (c : Client) (state : AtaDeviceState) :
  EffectiveFlags state = 0 ->
  SetDeviceState J c state = (Err NoPendingChanges, []).
Proof.
  intros Hflags. unfold SetDeviceState. rewrite Hflags. reflexivity.
Qed.

(** C3 (as amended): a state whose flags are zero is rejected by
    [SetDeviceState] with the no-pending-changes error, and no request is
    handed to the transport; a state just read by [GetDeviceState] carries
    the flags of the response it was decoded from, and it is rejected in
    that way when those decoded flags are zero. *)
Theorem C3_zero_flags_rejected (J : JSON) (c : Client) (state : AtaDeviceState) :
  (EffectiveFlags state = 0 ->
   SetDeviceState J c state = (Err NoPendingChanges, [])) /\
  (forall (deviceID buildingID : Z) (fresh : AtaDeviceState) (sent : list Request),
     GetDeviceState J c deviceID buildingID = (Ok fresh, sent) ->
     exists (resp : Response) (decoded : AtaDeviceState),
       DecodeState J (RespBody resp) = Ok decoded /\
       EffectiveFlags fresh = EffectiveFlags decoded /\
       (EffectiveFlags decoded = 0 ->
        SetDeviceState J c fresh = (Err NoPendingChanges, []))).
Proof.
  split; [apply SetDeviceState_no_flags |].
  intros deviceID buildingID fresh sent Hget.
  destruct (GetDeviceState_fresh _ _ _ _ _ _ Hget)
    as (resp & decoded & Hdec & _ & Hflags).
  exists resp, decoded. split; [exact Hdec | split; [exact Hflags |]].
  intros Hzero. apply SetDeviceState_no_flags. rewrite Hflags. exact Hzero.
Qed.

Lemma C3_zero_flags_rejected_witness :
  SetDeviceState exampleJSON exampleClient
      (ResetEffectiveFlags (SetPower true zeroAtaDeviceState))
    = (Err NoPendingChanges, []) /\
  fst (GetDeviceState exampleJSON exampleClient 10 1)
    = Ok (with_BuildingID 1 zeroAtaDeviceState) /\
  SetDeviceState exampleJSON exampleClient (with_BuildingID 1 zeroAtaDeviceState)
    = (Err NoPendingChanges, []).
Proof.
  destruct (C3_zero_flags_rejected exampleJSON exampleClient
              (ResetEffectiveFlags (SetPower true zeroAtaDeviceState)))
    as [Hzero Hfresh].
  split; [apply Hzero; reflexivity | split; [reflexivity |]].
  destruct (Hfresh 10 1 (with_BuildingID 1 zeroAtaDeviceState)
              (snd (GetDeviceState exampleJSON exampleClient 10 1)) eq_refl)
    as (resp & decoded & Hdec & Hflags & Hreject).
  apply Hreject. rewrite <- Hflags. reflexivity.
Defined.

(** C3, counterexample: a state just read is not rejected when the response
    carries flags.  Against a service that answers every read with flags 6,
    the state [GetDeviceState] returns has flags 6, and [SetDeviceState]
    given that state sends the POST instead of returning the
    no-pending-changes error. *)
Lemma C3_fresh_state_with_flags_is_written :
  let J := mkJSON (Marshal exampleJSON)
             (fun _ => Ok (with_EffectiveFlags 6 zeroAtaDeviceState))
             (fun _ => None) in
  (exists (fresh : AtaDeviceState) (sent : list Request),
     GetDeviceState J exampleClient 10 1 = (Ok fresh, sent) /\
     EffectiveFlags fresh = 6 /\
     fst (SetDeviceState J exampleClient fresh) <> Err NoPendingChanges /\
     exists req : Request,
       snd (SetDeviceState J exampleClient fresh) = [req] /\
       Method req = "POST" /\
       Body req = "{EffectiveFlags:6,HasPendingCommand:true}") /\
  ~ (forall (deviceID buildingID : Z) (fresh : AtaDeviceState)
       (sent : list Request),
       GetDeviceState J exampleClient deviceID buildingID = (Ok fresh, sent) ->
       SetDeviceState J exampleClient fresh = (Err NoPendingChanges, [])).
Proof.
  intros J. split.
  - eexists _, _. split; [reflexivity |]. split; [reflexivity |].
    split; [vm_compute; discriminate |].
    eexists. repeat split.
  - intros H.
    specialize (H 10 1 _ _ eq_refl). vm_compute in H. discriminate H.
Qed.

(** A state read from the service whose decoded flags are zero cannot be
    written back as it is, and neither can any state after
    [ResetEffectiveFlags]. *)
Lemma fresh_state_not_writable (J : JSON) (c : Client) (deviceID buildingID : Z)
    (fresh : AtaDeviceState) (sent : list Request) :
  GetDeviceState J c deviceID buildingID = (Ok fresh, sent) ->
  EffectiveFlags fresh = 0 ->
  SetDeviceState J c fresh = (Err NoPendingChanges, []).
Proof.
  intros _ Hflags. unfold SetDeviceState. rewrite Hflags. reflexivity.
Qed.

Lemma reset_state_not_writable (J : JSON) (c : Client) (state : AtaDeviceState) :
  SetDeviceState J c (ResetEffectiveFlags state) = (Err NoPendingChanges, []).
Proof. reflexivity. Qed.

(** Evaluate the canonical form of the literal header keys. *)
Ltac canonical_keys :=
  repeat match goal with
  | |- context [CanonicalMIMEHeaderKey ?k] =>
      let k' := eval vm_compute in (CanonicalMIMEHeaderKey k) in
      change (CanonicalMIMEHeaderKey k) with k'
  end.

(** What [SetDeviceState] does once the two local checks have passed. *)
Lemma SetDeviceState_guarded (J : JSON) (c : Client) (state : AtaDeviceState) :
  EffectiveFlags state <> 0 ->
  SetDeviceState J c state =
    let guarded := with_HasPendingCommand true state in
    if negb (DeviceType state =? 0) then
      (Err ("unsupported device type for SetDeviceState: "
            +:+ Itoa (DeviceType state)), [])
    else
      match Marshal J guarded with
      | Err e => (Err ("failed to marshal set device state request body: " +:+ e), [])
      | Ok jsonBody =>
          let req :=
            mkRequest "POST" (baseURL +:+ "/Device/SetAta")
              (<["Content-Type" := ["application/json"]]>
          (<["Accept" := ["application/json"]]>
             (<["User-Agent" := ["melcloud-go"]]>
                (<["X-Mitscontextkey" := [token c]]> ∅))))
              jsonBody in
          (fst (SetDeviceState J c state), [req])
      end.
Proof.
  intros Hflags. unfold SetDeviceState at 1.
  destruct (Z.eqb_spec (EffectiveFlags state) 0) as [E | _]; [contradiction |].
  cbv zeta. cbn [DeviceType with_HasPendingCommand].
  destruct (negb (DeviceType state =? 0)) eqn:Hty; [reflexivity |].
  destruct (Marshal J (with_HasPendingCommand true state)) as [body | e] eqn:Hm;
    [| reflexivity].
  unfold SetDeviceState.
  destruct (Z.eqb_spec (EffectiveFlags state) 0) as [E | _]; [contradiction |].
  cbv zeta. cbn [DeviceType with_HasPendingCommand]. rewrite Hty, Hm.
  unfold NewRequest, setHeaders, Header_Set. cbn [Method URL Header Body]. canonical_keys.
  destruct (httpClient c _) as [resp | e]; [| reflexivity].
  destruct (negb (StatusCode resp =? StatusOK)).
  - destruct (DecodeDetails J (RespBody resp)); reflexivity.
  - destruct (DecodeState J (RespBody resp)); reflexivity.
Qed.

(** C7: for a state with some flag set, the state that [SetDeviceState]
    marshals has [HasPendingCommand] true and the flags of the input, bit for
    bit (it differs from the input in [HasPendingCommand] at most); every
    request handed to the transport carries that marshalled state as its
    body; and for an ATA device whose state marshals, one such request is
    sent, a POST to the SetAta endpoint. *)
Theorem C7_guard_forces_pending (J : JSON) (c : Client) (state : AtaDeviceState) :
  EffectiveFlags state <> 0 ->
  let guarded := with_HasPendingCommand true state in
  HasPendingCommand guarded = true /\
  EffectiveFlags guarded = EffectiveFlags state /\
  (forall b : bool, with_HasPendingCommand b guarded = with_HasPendingCommand b state) /\
  (forall req : Request,
     req ∈ snd (SetDeviceState J c state) -> Marshal J guarded = Ok (Body req)) /\
  (forall jsonBody : string,
     DeviceType state = 0 -> Marshal J guarded = Ok jsonBody ->
     exists req : Request,
       snd (SetDeviceState J c state) = [req] /\
       Method req = "POST" /\
       URL req = baseURL +:+ "/Device/SetAta" /\
       Body req = jsonBody).
Proof.
  intros Hflags guarded.
  split; [reflexivity | split; [reflexivity | split; [reflexivity |]]].
  rewrite (SetDeviceState_guarded J c state Hflags). cbv zeta. fold guarded.
  split.
  - intros req.
    destruct (negb (DeviceType state =? 0)); [intros H; inversion H |].
    destruct (Marshal J guarded) as [body | e]; [| intros H; inversion H].
    cbn [snd]. intros H%list_elem_of_singleton. subst req. reflexivity.
  - intros jsonBody Hty Hm. rewrite Hty, Hm. cbn [negb Z.eqb snd].
    eexists. repeat split.
Qed.

Lemma C7_guard_forces_pending_witness :
  let state := SetTargetTemperature 22.0%float zeroAtaDeviceState in
  let guarded := with_HasPendingCommand true state in
  HasPendingCommand guarded = true /\
  EffectiveFlags guarded = 4 /\
  (forall b : bool, with_HasPendingCommand b guarded = with_HasPendingCommand b state) /\
  (forall req : Request,
     req ∈ snd (SetDeviceState exampleJSON exampleClient state) ->
     Marshal exampleJSON guarded = Ok (Body req)) /\
  (forall jsonBody : string,
     DeviceType state = 0 -> Marshal exampleJSON guarded = Ok jsonBody ->
     exists req : Request,
       snd (SetDeviceState exampleJSON exampleClient state) = [req] /\
       Method req = "POST" /\
       URL req = baseURL +:+ "/Device/SetAta" /\
       Body req = jsonBody).
Proof.
  intros state guarded.
  apply (C7_guard_forces_pending exampleJSON exampleClient state).
  discriminate.
Defined.

(** C10: for a state with some flag set whose device type is not 0,
    [SetDeviceState] returns the "unsupported device type" error naming the
    type and hands no request to the transport; when the flags are zero as
    well, the error is the no-pending-changes one: the flag check comes
    first. *)
Theorem C10_unsupported_device_type (J : JSON) (c : Client) (state : AtaDeviceState) :
  DeviceType state <> 0 ->
  (EffectiveFlags state <> 0 ->
   SetDeviceState J c state
     = (Err ("unsupported device type for SetDeviceState: "
             +:+ Itoa (DeviceType state)), [])) /\
  (EffectiveFlags state = 0 ->
   SetDeviceState J c state = (Err NoPendingChanges, [])).
Proof.
  intros Hty. split; intros Hflags.
  - rewrite (SetDeviceState_guarded J c state Hflags). cbv zeta.
    destruct (Z.eqb_spec (DeviceType state) 0); [contradiction | reflexivity].
  - unfold SetDeviceState. rewrite Hflags. reflexivity.
Qed.

Lemma C10_unsupported_device_type_witness :
  let atw := mkAtaDeviceState 7 1 "" "" 1 false 0 0 0 0 0 0 0 false "" 0 false in
  SetDeviceState exampleJSON exampleClient (SetPower true atw)
    = (Err "unsupported device type for SetDeviceState: 1", []) /\
  SetDeviceState exampleJSON exampleClient atw = (Err NoPendingChanges, []).
Proof.
  intros atw.
  destruct (C10_unsupported_device_type exampleJSON exampleClient (SetPower true atw))
    as [Hset _]; [discriminate |].
  destruct (C10_unsupported_device_type exampleJSON exampleClient atw)
    as [_ Hempty]; [discriminate |].
  split; [apply Hset; discriminate | apply Hempty; reflexivity].
Defined.

(** * Further properties of the package *)

(** ** [LastCommunicationTime] *)

(** X1: for a timestamp of at most 27 bytes, [LastCommunicationTime] returns
    what [time.Parse] returns for the timestamp and a layout that is the
    prefix of "2006-01-02T15:04:05.000000Z" of exactly the timestamp's
    length. *)
Theorem X1_last_communication_layout {Time : Type}
    (Parse : string -> string -> result Time) (s : AtaDeviceState) :
  (String.length (LastCommunication s) <= 27)%nat ->
  exists layout : string,
    LastCommunicationTime Parse s = Returned (Parse layout (LastCommunication s)) /\
    String.length layout = String.length (LastCommunication s) /\
    layout = substring 0 (String.length (LastCommunication s))
               "2006-01-02T15:04:05.000000Z".
Proof.
  unfold LastCommunicationTime. cbv zeta.
  remember (LastCommunication s) as stamp eqn:Hstamp. clear Hstamp.
  remember (String.length stamp) as n eqn:Hlen. clear Hlen.
  intros Hn.
  do 28 (destruct n as [| n]; [eexists; repeat split; reflexivity |]).
  lia.
Qed.

Lemma X1_last_communication_layout_witness :
  let s := mkAtaDeviceState 0 0 "" "" 0 false 0 0 0 0 0 0 0 false
             "2024-05-01T12:30:00.12" 0 false in
  exists layout : string,
    LastCommunicationTime (fun l v => Ok (l, v)) s
      = Returned (Ok (layout, "2024-05-01T12:30:00.12")) /\
    String.length layout = 22%nat /\
    layout = "2006-01-02T15:04:05.00".
Proof.
  intros s.
  apply (X1_last_communication_layout (fun l v => Ok (l, v)) s).
  cbn. lia.
Defined.

(** X2: for a timestamp longer than 27 bytes the slice of the layout is out
    of range: [LastCommunicationTime] panics and [time.Parse] is not reached. *)
Theorem X2_last_communication_panics {Time : Type}
    (Parse : string -> string -> result Time) (s : AtaDeviceState) :
  (27 < String.length (LastCommunication s))%nat ->
  LastCommunicationTime Parse s = Panicked.
Proof.
  unfold LastCommunicationTime. cbv zeta.
  remember (LastCommunication s) as stamp eqn:Hstamp. clear Hstamp.
  remember (String.length stamp) as n eqn:Hlen. clear Hlen.
  intros Hn.
  do 28 (destruct n as [| n]; [lia |]).
  reflexivity.
Qed.

Lemma X2_last_communication_panics_witness :
  LastCommunicationTime (fun l v => Ok (l, v))
    (mkAtaDeviceState 0 0 "" "" 0 false 0 0 0 0 0 0 0 false
       "2024-05-01T12:30:00.12345678" 0 false)
  = Panicked.
Proof.
  apply (X2_last_communication_panics (fun l v => Ok (l, v))).
  cbn. lia.
Defined.

(** ** The codec beyond the table entries *)

(** X3: the two hand-written maps of each field hold the same pairs: a label
    encodes to a code exactly when that code decodes to that label, for the
    operation mode and for both vanes. *)
Theorem X3_tables_mutually_inverse (l : string) (z : Z) :
  (opModeStringToInt !! l = Some z <-> opModeIntToString !! z = Some l) /\
  (vaneVertStringToInt !! l = Some z <-> vaneVertIntToString !! z = Some l) /\
  (vaneHorizStringToInt !! l = Some z <-> vaneHorizIntToString !! z = Some l).
Proof.
  split; [apply op_mode_tables_inverse | split];
    [apply vane_vertical_tables_inverse | apply vane_horizontal_tables_inverse].
Qed.

(** X4: whatever string a table-backed setter accepts, the decoder of the
    field returns that same string from the updated state. *)
Theorem X4_accepted_label_decodes_back (v : string) (s s' : AtaDeviceState) :
  (SetOperationMode v s = (s', nil_error) -> OperationModeString s' = v) /\
  (SetVaneVertical v s = (s', nil_error) -> VaneVerticalString s' = v) /\
  (SetVaneHorizontal v s = (s', nil_error) -> VaneHorizontalString s' = v).
Proof.
  split; [| split].
  - unfold SetOperationMode, OperationModeString.
    destruct (opModeStringToInt !! v) as [z |] eqn:Hv; intros [= <-].
    cbn [OperationMode or_flag with_EffectiveFlags with_OperationMode].
    apply op_mode_tables_inverse in Hv. rewrite Hv. reflexivity.
  - unfold SetVaneVertical, VaneVerticalString.
    destruct (vaneVertStringToInt !! v) as [z |] eqn:Hv; intros [= <-].
    cbn [VaneVertical or_flag with_EffectiveFlags with_VaneVertical].
    apply vane_vertical_tables_inverse in Hv. rewrite Hv. reflexivity.
  - unfold SetVaneHorizontal, VaneHorizontalString.
    destruct (vaneHorizStringToInt !! v) as [z |] eqn:Hv; intros [= <-].
    cbn [VaneHorizontal or_flag with_EffectiveFlags with_VaneHorizontal].
    apply vane_horizontal_tables_inverse in Hv. rewrite Hv. reflexivity.
Qed.

Lemma X4_accepted_label_decodes_back_witness :
  OperationModeString (fst (SetOperationMode "fan_only" zeroAtaDeviceState))
    = "fan_only" /\
  VaneVerticalString (fst (SetVaneVertical "swing" zeroAtaDeviceState)) = "swing" /\
  VaneHorizontalString (fst (SetVaneHorizontal "split" zeroAtaDeviceState)) = "split".
Proof.
  split; [| split].
  - apply (X4_accepted_label_decodes_back "fan_only" zeroAtaDeviceState). reflexivity.
  - apply (X4_accepted_label_decodes_back "swing" zeroAtaDeviceState). reflexivity.
  - apply (X4_accepted_label_decodes_back "split" zeroAtaDeviceState). reflexivity.
Defined.

(** What a successful lookup in a decoding table tells. *)
Lemma opModeIntToString_found (z : Z) (l : string) :
  opModeIntToString !! z = Some l -> z ∈ codes op_mode_table /\ l <> "unknown".
Proof.
  unfold_tables. intros H.
  repeat (rewrite lookup_insert in H; case_decide; subst;
          [injection H as <-; split; [cbn; set_solver | discriminate] |]).
  rewrite lookup_empty in H. discriminate.
Qed.

Lemma vaneVertIntToString_found (z : Z) (l : string) :
  vaneVertIntToString !! z = Some l ->
  z ∈ codes vane_vertical_table /\ l <> "unknown".
Proof.
  unfold_tables. intros H.
  repeat (rewrite lookup_insert in H; case_decide; subst;
          [injection H as <-; split; [cbn; set_solver | discriminate] |]).
  rewrite lookup_empty in H. discriminate.
Qed.

Lemma vaneHorizIntToString_found (z : Z) (l : string) :
  vaneHorizIntToString !! z = Some l ->
  z ∈ codes vane_horizontal_table /\ l <> "unknown".
Proof.
  unfold_tables. intros H.
  repeat (rewrite lookup_insert in H; case_decide; subst;
          [injection H as <-; split; [cbn; set_solver | discriminate] |]).
  rewrite lookup_empty in H. discriminate.
Qed.

(** X5: when a table-backed decoder returns a label other than "unknown",
    the setter of the field accepts that label and stores the code the label
    was decoded from, in any state. *)
Theorem X5_decoded_label_encodes_back (s s0 : AtaDeviceState) :
  (OperationModeString s <> "unknown" ->
   SetOperationMode (OperationModeString s) s0
     = (or_flag FlagOperationMode (with_OperationMode (OperationMode s) s0),
        nil_error)) /\
  (VaneVerticalString s <> "unknown" ->
   SetVaneVertical (VaneVerticalString s) s0
     = (or_flag FlagVaneVertical (with_VaneVertical (VaneVertical s) s0),
        nil_error)) /\
  (VaneHorizontalString s <> "unknown" ->
   SetVaneHorizontal (VaneHorizontalString s) s0
     = (or_flag FlagVaneHorizontal (with_VaneHorizontal (VaneHorizontal s) s0),
        nil_error)).
Proof.
  split; [| split].
  - unfold OperationModeString, ModeUnknown.
    destruct (opModeIntToString !! OperationMode s) as [l |] eqn:Hl;
      [intros _ | congruence].
    apply op_mode_tables_inverse in Hl. unfold SetOperationMode.
    rewrite Hl. reflexivity.
  - unfold VaneVerticalString.
    destruct (vaneVertIntToString !! VaneVertical s) as [l |] eqn:Hl;
      [intros _ | congruence].
    apply vane_vertical_tables_inverse in Hl. unfold SetVaneVertical.
    rewrite Hl. reflexivity.
  - unfold VaneHorizontalString.
    destruct (vaneHorizIntToString !! VaneHorizontal s) as [l |] eqn:Hl;
      [intros _ | congruence].
    apply vane_horizontal_tables_inverse in Hl. unfold SetVaneHorizontal.
    rewrite Hl. reflexivity.
Qed.

Lemma X5_decoded_label_encodes_back_witness :
  let s := with_VaneHorizontal 12 (with_VaneVertical 7
             (with_OperationMode 8 zeroAtaDeviceState)) in
  SetOperationMode (OperationModeString s) zeroAtaDeviceState
    = (or_flag FlagOperationMode (with_OperationMode 8 zeroAtaDeviceState),
       nil_error) /\
  SetVaneVertical (VaneVerticalString s) zeroAtaDeviceState
    = (or_flag FlagVaneVertical (with_VaneVertical 7 zeroAtaDeviceState),
       nil_error) /\
  SetVaneHorizontal (VaneHorizontalString s) zeroAtaDeviceState
    = (or_flag FlagVaneHorizontal (with_VaneHorizontal 12 zeroAtaDeviceState),
       nil_error).
Proof.
  intros s.
  destruct (X5_decoded_label_encodes_back s zeroAtaDeviceState) as (H1 & H2 & H3).
  split; [| split].
  - apply H1. discriminate.
  - apply H2. discriminate.
  - apply H3. discriminate.
Defined.

(** X6: a table-backed decoder returns "unknown" exactly for the codes that
    are not in its table (no label of a table is "unknown"), and the label
    "unknown" is accepted by none of the four string setters. *)
Theorem X6_unknown_exactly_outside_table (s s0 : AtaDeviceState) :
  (OperationModeString s = "unknown" <-> OperationMode s ∉ codes op_mode_table) /\
  (VaneVerticalString s = "unknown" <->
     VaneVertical s ∉ codes vane_vertical_table) /\
  (VaneHorizontalString s = "unknown" <->
     VaneHorizontal s ∉ codes vane_horizontal_table) /\
  SetOperationMode "unknown" s0 = (s0, Some "invalid operation mode: unknown") /\
  SetFanSpeedMode "unknown" s0 = (s0, Some "invalid fan speed: unknown") /\
  SetVaneVertical "unknown" s0
    = (s0, Some "invalid vertical vane position: unknown") /\
  SetVaneHorizontal "unknown" s0
    = (s0, Some "invalid horizontal vane position: unknown").
Proof.
  split; [| split; [| split; [| repeat split; reflexivity]]].
  - split.
    + unfold OperationModeString, ModeUnknown.
      destruct (opModeIntToString !! OperationMode s) as [l |] eqn:Hl.
      * intros ->. apply opModeIntToString_found in Hl as [_ Hl]. congruence.
      * intros _ Hin.
        assert (Hsome : is_Some (opModeIntToString !! OperationMode s)).
        { cbn in Hin. repeat (apply elem_of_cons in Hin as [-> | Hin]);
            [eexists; reflexivity .. | inversion Hin]. }
        rewrite Hl in Hsome. destruct Hsome as [? [=]].
    + intros H. unfold OperationModeString.
      rewrite (opModeIntToString_absent _ H). reflexivity.
  - split.
    + unfold VaneVerticalString.
      destruct (vaneVertIntToString !! VaneVertical s) as [l |] eqn:Hl.
      * intros ->. apply vaneVertIntToString_found in Hl as [_ Hl]. congruence.
      * intros _ Hin.
        assert (Hsome : is_Some (vaneVertIntToString !! VaneVertical s)).
        { cbn in Hin. repeat (apply elem_of_cons in Hin as [-> | Hin]);
            [eexists; reflexivity .. | inversion Hin]. }
        rewrite Hl in Hsome. destruct Hsome as [? [=]].
    + intros H. unfold VaneVerticalString.
      rewrite (vaneVertIntToString_absent _ H). reflexivity.
  - split.
    + unfold VaneHorizontalString.
      destruct (vaneHorizIntToString !! VaneHorizontal s) as [l |] eqn:Hl.
      * intros ->. apply vaneHorizIntToString_found in Hl as [_ Hl]. congruence.
      * intros _ Hin.
        assert (Hsome : is_Some (vaneHorizIntToString !! VaneHorizontal s)).
        { cbn in Hin. repeat (apply elem_of_cons in Hin as [-> | Hin]);
            [eexists; reflexivity .. | inversion Hin]. }
        rewrite Hl in Hsome. destruct Hsome as [? [=]].
    + intros H. unfold VaneHorizontalString.
      rewrite (vaneHorizIntToString_absent _ H). reflexivity.
Qed.

(** X7: after [SetFanSpeedMode] accepts a string, [FanSpeedString] returns
    "auto" for "auto" and otherwise the canonical decimal form of the number
    the string was read as, which [Atoi] reads as the same number; the
    canonical form can differ from the string given. *)
Theorem X7_fan_speed_label_canonical (v : string) (s s' : AtaDeviceState) :
  SetFanSpeedMode v s = (s', nil_error) ->
  (v = "auto" /\ FanSpeedString s' = "auto") \/
  (exists n, Atoi v = Some n /\ 0 < n /\
     FanSpeedString s' = Itoa n /\ Atoi (FanSpeedString s') = Atoi v).
Proof.
  destruct (String.eqb_spec v "auto") as [-> | Hne].
  - intros [= <-]. left. split; reflexivity.
  - rewrite (SetFanSpeedMode_not_auto _ _ Hne).
    destruct (Atoi v) as [n |] eqn:Hn; [| discriminate].
    destruct (Z.ltb_spec 0 n) as [Hpos | _]; intros [= <-].
    right. exists n.
    assert (Hstr : FanSpeedString (or_flag FlagFanSpeed (with_SetFanSpeed n s))
                   = Itoa n).
    { unfold FanSpeedString, FanSpeedAuto. cbn [SetFanSpeed or_flag
        with_EffectiveFlags with_SetFanSpeed].
      destruct (Z.eqb_spec n 0); [lia | reflexivity]. }
    rewrite Hstr. repeat split; [assumption |].
    apply Atoi_Itoa. unfold Atoi in Hn.
    destruct v as [| c rest]; [discriminate |]. cbv zeta in Hn.
    destruct (if Ascii.eqb c "+" || Ascii.eqb c "-" then rest else String c rest);
      [discriminate |].
    destruct (parse_digits 0 _) as [un |]; [| discriminate].
    destruct ((minInt <=? _) && (_ <=? maxInt)) eqn:Hr; [| discriminate].
    injection Hn as <-. apply andb_true_iff in Hr as [H1%Z.leb_le H2%Z.leb_le].
    split; assumption.
Qed.

Lemma X7_fan_speed_label_canonical_witness :
  (("+07" : string) = "auto" /\
   FanSpeedString (fst (SetFanSpeedMode "+07" zeroAtaDeviceState)) = "auto") \/
  (exists n, Atoi "+07" = Some n /\ 0 < n /\
     FanSpeedString (fst (SetFanSpeedMode "+07" zeroAtaDeviceState)) = Itoa n /\
     Atoi (FanSpeedString (fst (SetFanSpeedMode "+07" zeroAtaDeviceState)))
       = Atoi "+07").
Proof.
  apply (X7_fan_speed_label_canonical "+07" zeroAtaDeviceState). reflexivity.
Defined.

(** X8: the label [FanSpeedString] gives for a fan-speed code from 0 up to
    the largest [int] is accepted by [SetFanSpeedMode], which stores that
    code; the label it gives for a negative code is rejected, and the state
    is left as it was. *)
Theorem X8_fan_speed_label_encodes_back (s s0 : AtaDeviceState) :
  (0 <= SetFanSpeed s <= maxInt ->
   SetFanSpeedMode (FanSpeedString s) s0
     = (or_flag FlagFanSpeed (with_SetFanSpeed (SetFanSpeed s) s0), nil_error)) /\
  (minInt <= SetFanSpeed s < 0 ->
   SetFanSpeedMode (FanSpeedString s) s0
     = (s0, Some ("invalid fan speed: " +:+ FanSpeedString s))).
Proof.
  unfold FanSpeedString, FanSpeedAuto, FanAuto.
  destruct (Z.eqb_spec (SetFanSpeed s) 0) as [E | Hnz].
  - split; [intros _; rewrite E; reflexivity | lia].
  - rewrite (SetFanSpeedMode_not_auto _ _ (Itoa_not_auto _)).
    split; intros Hr.
    + rewrite Atoi_Itoa by (unfold int_range, minInt; lia).
      destruct (Z.ltb_spec 0 (SetFanSpeed s)); [reflexivity | lia].
    + rewrite Atoi_Itoa by (unfold int_range, maxInt; lia).
      destruct (Z.ltb_spec 0 (SetFanSpeed s)); [lia | reflexivity].
Qed.

Lemma X8_fan_speed_label_encodes_back_witness :
  SetFanSpeedMode (FanSpeedString (with_SetFanSpeed 4 zeroAtaDeviceState))
      zeroAtaDeviceState
    = (or_flag FlagFanSpeed (with_SetFanSpeed 4 zeroAtaDeviceState), nil_error) /\
  SetFanSpeedMode (FanSpeedString (with_SetFanSpeed (-3) zeroAtaDeviceState))
      zeroAtaDeviceState
    = (zeroAtaDeviceState, Some "invalid fan speed: -3").
Proof.
  split.
  - apply (X8_fan_speed_label_encodes_back
             (with_SetFanSpeed 4 zeroAtaDeviceState) zeroAtaDeviceState).
    unfold maxInt. cbn. lia.
  - apply (X8_fan_speed_label_encodes_back
             (with_SetFanSpeed (-3) zeroAtaDeviceState) zeroAtaDeviceState).
    unfold minInt. cbn. lia.
Defined.

(** ** How the setters compose *)

(** Whether a setter call succeeds, and the code it stores, do not depend on
    the state it is applied to. *)
Lemma call_success (c : Setter) (s s' : AtaDeviceState) :
  call c s = (s', nil_error) ->
  exists code : Z,
    forall s0, call c s0 = (or_flag (setter_flag c) (assign c code s0), nil_error).
Proof.
  destruct c as [power | mode | temp | speed | pos | pos]; cbn [call].
  - intros _. exists 0. reflexivity.
  - unfold SetOperationMode.
    destruct (opModeStringToInt !! mode) as [z |]; [| discriminate].
    intros _. exists z. reflexivity.
  - intros _. exists 0. reflexivity.
  - unfold SetFanSpeedMode.
    destruct (String.eqb speed FanAuto); [intros _; exists 0; reflexivity |].
    destruct (Atoi speed) as [n |]; [| discriminate].
    destruct (0 <? n); [| discriminate].
    intros _. exists n. reflexivity.
  - unfold SetVaneVertical.
    destruct (vaneVertStringToInt !! pos) as [z |]; [| discriminate].
    intros _. exists z. reflexivity.
  - unfold SetVaneHorizontal.
    destruct (vaneHorizStringToInt !! pos) as [z |]; [| discriminate].
    intros _. exists z. reflexivity.
Qed.

Lemma call_success_state (c : Setter) (s s' : AtaDeviceState) :
  call c s = (s', nil_error) ->
  exists code : Z,
    s' = or_flag (setter_flag c) (assign c code s) /\
    forall s0, call c s0 = (or_flag (setter_flag c) (assign c code s0), nil_error).
Proof.
  intros Hcall. destruct (call_success _ _ _ Hcall) as [code Hcode].
  exists code. split; [| exact Hcode].
  rewrite Hcode in Hcall. congruence.
Qed.

(** Normalise nested field assignments to one record. *)
Ltac unfold_updates :=
  unfold or_flag, assign, setter_flag, with_Power, with_SetTemperature,
    with_OperationMode, with_SetFanSpeed, with_VaneHorizontal,
    with_VaneVertical, with_BuildingID, with_EffectiveFlags,
    with_HasPendingCommand;
  cbn [DeviceID BuildingID MacAddress SerialNumber DeviceType Power
       RoomTemperature SetTemperature OperationMode SetFanSpeed VaneHorizontal
       VaneVertical ErrorCode HasError LastCommunication EffectiveFlags
       HasPendingCommand].

Lemma lor_swap (x a b : Z) : Z.lor (Z.lor x a) b = Z.lor (Z.lor x b) a.
Proof. rewrite <- !Z.lor_assoc, (Z.lor_comm a b). reflexivity. Qed.

Lemma lor_twice (x a : Z) : Z.lor (Z.lor x a) a = Z.lor x a.
Proof. rewrite <- Z.lor_assoc, Z.lor_diag. reflexivity. Qed.

Lemma call_DeviceType (c : Setter) (s s' : AtaDeviceState) :
  call c s = (s', nil_error) -> DeviceType s' = DeviceType s.
Proof.
  intros Hcall. destruct (call_success_state _ _ _ Hcall) as (code & -> & _).
  destruct c; reflexivity.
Qed.

(** X9: a successful setter call changes its own field and the flags and
    nothing else: the identity, type, error and timestamp fields, the room
    temperature and the pending-command marker stay, and so does every
    settable field other than the setter's own. *)
Theorem X9_setter_frame (c : Setter) (s s' : AtaDeviceState) :
  call c s = (s', nil_error) ->
  (DeviceID s' = DeviceID s /\ BuildingID s' = BuildingID s /\
   MacAddress s' = MacAddress s /\ SerialNumber s' = SerialNumber s /\
   DeviceType s' = DeviceType s /\ RoomTemperature s' = RoomTemperature s /\
   ErrorCode s' = ErrorCode s /\ HasError s' = HasError s /\
   LastCommunication s' = LastCommunication s /\
   HasPendingCommand s' = HasPendingCommand s) /\
  (setter_bit c <> 0 -> Power s' = Power s) /\
  (setter_bit c <> 1 -> OperationMode s' = OperationMode s) /\
  (setter_bit c <> 2 -> SetTemperature s' = SetTemperature s) /\
  (setter_bit c <> 3 -> SetFanSpeed s' = SetFanSpeed s) /\
  (setter_bit c <> 4 -> VaneVertical s' = VaneVertical s) /\
  (setter_bit c <> 8 -> VaneHorizontal s' = VaneHorizontal s).
Proof.
  intros Hcall. destruct (call_success_state _ _ _ Hcall) as (code & -> & _).
  destruct c; cbn; repeat split; intros; congruence.
Qed.

Lemma X9_setter_frame_witness :
  let s := with_SetFanSpeed 2 (with_Power true zeroAtaDeviceState) in
  let s' := fst (call (CallSetVaneVertical "3") s) in
  Power s' = true /\ SetFanSpeed s' = 2 /\ DeviceType s' = 0.
Proof.
  intros s s'.
  destruct (X9_setter_frame (CallSetVaneVertical "3") s s' eq_refl)
    as ((_ & _ & _ & _ & Hty & _) & Hpow & _ & _ & Hfan & _).
  split; [| split].
  - rewrite Hpow; [reflexivity | discriminate].
  - rewrite Hfan; [reflexivity | discriminate].
  - rewrite Hty. reflexivity.
Defined.

(** X10: two successful calls of different setters can be swapped: calling
    them in the other order succeeds as well and ends in the same state. *)
Theorem X10_different_setters_commute (c1 c2 : Setter) (s s1 s12 : AtaDeviceState) :
  same_setter c1 c2 = false ->
  call c1 s = (s1, nil_error) -> call c2 s1 = (s12, nil_error) ->
  exists s2, call c2 s = (s2, nil_error) /\ call c1 s2 = (s12, nil_error).
Proof.
  intros Hdiff H1 H2.
  destruct (call_success_state _ _ _ H1) as (k1 & -> & Hc1).
  destruct (call_success_state _ _ _ H2) as (k2 & -> & Hc2).
  eexists. split; [apply Hc2 |]. rewrite Hc1. f_equal.
  destruct c1, c2; try discriminate Hdiff;
    unfold_updates; f_equal; apply lor_swap.
Qed.

Lemma X10_different_setters_commute_witness :
  exists s2,
    call (CallSetFanSpeedMode "2") zeroAtaDeviceState = (s2, nil_error) /\
    call (CallSetPower true) s2
      = (fst (call (CallSetFanSpeedMode "2") (SetPower true zeroAtaDeviceState)),
         nil_error).
Proof.
  apply (X10_different_setters_commute (CallSetPower true) (CallSetFanSpeedMode "2")
           zeroAtaDeviceState (SetPower true zeroAtaDeviceState)); reflexivity.
Defined.

(** X11: of two successful calls of the same setter the later one wins: the
    final state is the one the later call alone gives from the start state. *)
Theorem X11_same_setter_last_wins (c1 c2 : Setter) (s s1 s2 : AtaDeviceState) :
  same_setter c1 c2 = true ->
  call c1 s = (s1, nil_error) -> call c2 s1 = (s2, nil_error) ->
  call c2 s = (s2, nil_error).
Proof.
  intros Hsame H1 H2.
  destruct (call_success_state _ _ _ H1) as (k1 & -> & _).
  destruct (call_success_state _ _ _ H2) as (k2 & -> & Hc2).
  rewrite Hc2. f_equal.
  destruct c1, c2; try discriminate Hsame;
    unfold_updates; f_equal; symmetry; apply lor_twice.
Qed.

Lemma X11_same_setter_last_wins_witness :
  call (CallSetOperationMode "dry") zeroAtaDeviceState
    = (fst (call (CallSetOperationMode "dry")
              (fst (call (CallSetOperationMode "heat") zeroAtaDeviceState))),
       nil_error).
Proof.
  apply (X11_same_setter_last_wins (CallSetOperationMode "heat")
           (CallSetOperationMode "dry") zeroAtaDeviceState
           (fst (call (CallSetOperationMode "heat") zeroAtaDeviceState)));
    reflexivity.
Defined.

(** ** Setters and the write guard together *)

Lemma setter_flag_pos (c : Setter) : 0 < setter_flag c.
Proof. destruct c; reflexivity. Qed.

(** X12: after any successful setter call the flags are not zero, so
    [SetDeviceState] never answers the updated state with the
    no-pending-changes error; for an ATA device whose state marshals it sends
    one request, whose body is the marshalled state. *)
Theorem X12_setter_then_write (c : Setter) (s s' : AtaDeviceState)
    (J : JSON) (cl : Client) :
  call c s = (s', nil_error) ->
  EffectiveFlags s' <> 0 /\
  fst (SetDeviceState J cl s') <> Err NoPendingChanges /\
  (DeviceType s = 0 ->
   forall body : string,
     Marshal J (with_HasPendingCommand true s') = Ok body ->
     exists req : Request,
       snd (SetDeviceState J cl s') = [req] /\ Body req = body).
Proof.
  intros Hcall.
  assert (Hnz : EffectiveFlags s' <> 0).
  { rewrite (call_flags _ _ _ Hcall). intros H%Z.lor_eq_0_iff.
    pose proof (setter_flag_pos c). lia. }
  split; [exact Hnz | split].
  - unfold SetDeviceState, NewRequest.
    destruct (Z.eqb_spec (EffectiveFlags s') 0); [contradiction |].
    cbv zeta.
    destruct (negb _); [cbn; discriminate |].
    destruct (Marshal J _); [| cbn; discriminate].
    destruct (httpClient cl _) as [resp |]; [| cbn; discriminate].
    destruct (negb _).
    + destruct (DecodeDetails J _); cbn; discriminate.
    + destruct (DecodeState J _); cbn; discriminate.
  - intros Hty body Hm.
    rewrite (SetDeviceState_guarded J cl s' Hnz). cbv zeta.
    rewrite (call_DeviceType _ _ _ Hcall), Hty, Hm. cbn [negb Z.eqb snd]. eexists. split; reflexivity.
Qed.

Lemma X12_setter_then_write_witness :
  let s' := fst (call (CallSetPower true) zeroAtaDeviceState) in
  EffectiveFlags s' <> 0 /\
  fst (SetDeviceState exampleJSON exampleClient s') <> Err NoPendingChanges /\
  (DeviceType zeroAtaDeviceState = 0 ->
   forall body : string,
     Marshal exampleJSON (with_HasPendingCommand true s') = Ok body ->
     exists req : Request,
       snd (SetDeviceState exampleJSON exampleClient s') = [req] /\
       Body req = body).
Proof.
  intros s'.
  apply (X12_setter_then_write (CallSetPower true) zeroAtaDeviceState s'
           exampleJSON exampleClient).
  reflexivity.
Defined.

(** The flags after a run of successful setter calls. *)
Lemma calls_flags (cs : list Setter) (s s' : AtaDeviceState) :
  calls cs s = (s', nil_error) ->
  EffectiveFlags s' =
    foldl (fun acc c => Z.lor acc (setter_flag c)) (EffectiveFlags s) cs.
Proof.
  revert s. induction cs as [| c rest IH]; intros s; cbn [calls foldl].
  - intros [= <-]. reflexivity.
  - destruct (call c s) as [s1 [e |]] eqn:Hc; [discriminate |].
    intros Hrest. rewrite (IH _ Hrest), (call_flags _ _ _ Hc). reflexivity.
Qed.

Lemma foldl_lor_testbit (cs : list Setter) (f : Z) (i : Z) :
  Z.testbit (foldl (fun acc c => Z.lor acc (setter_flag c)) f cs) i =
    Z.testbit f i || existsb (fun c => i =? setter_bit c) cs.
Proof.
  revert f. induction cs as [| c rest IH]; intros f; cbn [foldl existsb].
  - rewrite orb_false_r. reflexivity.
  - rewrite IH, Z.lor_spec, setter_flag_bit.
    rewrite (Z.pow2_bits_eqb _ _ (setter_bit_nonneg c)).
    rewrite (Z.eqb_sym (setter_bit c) i), orb_assoc. reflexivity.
Qed.

Lemma foldl_lor_submask (cs : list Setter) (f : Z) :
  Z.lor f 0x11F = 0x11F ->
  Z.lor (foldl (fun acc c => Z.lor acc (setter_flag c)) f cs) 0x11F = 0x11F.
Proof.
  revert f. induction cs as [| c rest IH]; intros f Hf; cbn [foldl];
    [exact Hf |].
  apply IH. rewrite lor_swap, Hf. destruct c; reflexivity.
Qed.

Lemma submask_bounds (f m : Z) : 0 <= m -> Z.lor f m = m -> 0 <= f <= m.
Proof.
  intros Hm Hf.
  assert (0 <= f) by (apply (Z.lor_nonneg f m); lia).
  assert (0 <= Z.land m (Z.lnot f)) by (apply Z.land_nonneg; lia).
  pose proof (Z.sub_lor_l_same_l m f). lia.
Qed.

(** X13: after [ResetEffectiveFlags] and a run of successful setter calls
    the flags are the OR of the flags of the setters called, whatever the
    flags were before the reset: bit [i] is set exactly when a setter with
    that bit was called, and the value lies between 0 and 0x11F. *)
Theorem X13_flags_after_reset (cs : list Setter) (s s' : AtaDeviceState) :
  calls cs (ResetEffectiveFlags s) = (s', nil_error) ->
  EffectiveFlags s' = foldl (fun acc c => Z.lor acc (setter_flag c)) 0 cs /\
  (forall i : Z,
     Z.testbit (EffectiveFlags s') i = existsb (fun c => i =? setter_bit c) cs) /\
  0 <= EffectiveFlags s' <= 0x11F.
Proof.
  intros Hcalls. pose proof (calls_flags _ _ _ Hcalls) as Hflags.
  change (EffectiveFlags (ResetEffectiveFlags s)) with 0 in Hflags.
  split; [exact Hflags | split].
  - intros i. rewrite Hflags, foldl_lor_testbit, Z.bits_0. reflexivity.
  - apply submask_bounds; [lia |].
    rewrite Hflags. apply foldl_lor_submask. reflexivity.
Qed.

Lemma X13_flags_after_reset_witness :
  let s := with_EffectiveFlags 0x1F zeroAtaDeviceState in
  let cs := [CallSetTargetTemperature 23.5; CallSetVaneHorizontal "split";
             CallSetTargetTemperature 21] in
  let s' := fst (calls cs (ResetEffectiveFlags s)) in
  EffectiveFlags s' = foldl (fun acc c => Z.lor acc (setter_flag c)) 0 cs /\
  (forall i : Z,
     Z.testbit (EffectiveFlags s') i = existsb (fun c => i =? setter_bit c) cs) /\
  0 <= EffectiveFlags s' <= 0x11F.
Proof.
  intros s cs s'.
  apply (X13_flags_after_reset cs s s'). reflexivity.
Defined.

(** ** The device list *)

Lemma foldl_visit_areas (areas : list Area) (acc : list device.Device * gset Z) :
  foldl visit_area acc areas = foldl visit acc (area_devices areas).
Proof.
  revert acc. induction areas as [| a rest IH]; intros acc; [reflexivity |].
  unfold area_devices. cbn [map concat foldl]. rewrite foldl_app.
  rewrite IH. reflexivity.
Qed.

Lemma foldl_visit_floors (floors : list Floor) (acc : list device.Device * gset Z) :
  foldl visit_floor acc floors
    = foldl visit acc (concat (map floor_devices floors)).
Proof.
  revert acc. induction floors as [| f rest IH]; intros acc; [reflexivity |].
  cbn [map concat foldl]. rewrite foldl_app, IH.
  unfold visit_floor, floor_devices.
  rewrite foldl_app, foldl_visit_areas. reflexivity.
Qed.

Lemma foldl_visit_buildings (buildings : list Building)
    (acc : list device.Device * gset Z) :
  foldl visit_building acc buildings = foldl visit acc (tree_devices buildings).
Proof.
  revert acc. induction buildings as [| b rest IH]; intros acc; [reflexivity |].
  unfold tree_devices. cbn [map concat foldl]. rewrite foldl_app.
  fold (tree_devices rest). rewrite IH.
  unfold visit_building, building_devices. cbv zeta.
  rewrite !foldl_app, foldl_visit_floors, foldl_visit_areas. reflexivity.
Qed.

(** The loop with the [visited] set computes the first device of every id. *)
Lemma foldl_visit_first (l : list device.Device) (all : list device.Device)
    (visited : gset Z) (seen : list Z) :
  (forall z, z ∈ visited <-> z ∈ seen) ->
  (foldl visit (all, visited) l).1 = (all ++ first_of_each_id seen l)%list.
Proof.
  revert all visited seen.
  induction l as [| d rest IH]; intros all visited seen Hseen;
    cbn [foldl first_of_each_id].
  - rewrite app_nil_r. reflexivity.
  - unfold visit at 2. cbn [fst snd].
    destruct (decide (device.DeviceID d ∈ visited)) as [Hin | Hout];
      destruct (decide (device.DeviceID d ∈ seen)) as [Hin' | Hout'];
      try (exfalso; apply Hseen in Hin; contradiction);
      try (exfalso; apply Hseen in Hin'; contradiction).
    + apply IH, Hseen.
    + rewrite (IH _ _ (device.DeviceID d :: seen)).
      * rewrite <- app_assoc. reflexivity.
      * intros z. rewrite elem_of_union, elem_of_singleton, elem_of_cons, Hseen.
        reflexivity.
Qed.

Lemma collectDevices_first (buildings : list Building) :
  collectDevices buildings = first_of_each_id [] (tree_devices buildings).
Proof.
  unfold collectDevices.
  rewrite foldl_visit_buildings, (foldl_visit_first _ _ _ []); [reflexivity |].
  intros z. set_solver.
Qed.

Lemma first_of_each_id_in (l : list device.Device) (seen : list Z)
    (d : device.Device) :
  d ∈ first_of_each_id seen l -> d ∈ l /\ device.DeviceID d ∉ seen.
Proof.
  revert seen. induction l as [| x rest IH]; intros seen; cbn [first_of_each_id].
  - intros H. inversion H.
  - destruct (decide (device.DeviceID x ∈ seen)) as [Hin | Hout].
    + intros H. destruct (IH _ H) as [H1 H2]. split; [right |]; assumption.
    + intros [-> | H]%elem_of_cons; [split; [left | assumption] |].
      destruct (IH _ H) as [H1 H2]. split; [right; assumption |].
      intros Hd. apply H2. right. exact Hd.
Qed.

Lemma first_of_each_id_NoDup (l : list device.Device) (seen : list Z) :
  NoDup (device.DeviceID <$> first_of_each_id seen l).
Proof.
  revert seen. induction l as [| x rest IH]; intros seen; cbn [first_of_each_id].
  - constructor.
  - destruct (decide (device.DeviceID x ∈ seen)); [apply IH |].
    rewrite fmap_cons. apply NoDup_cons. split; [| apply IH].
    intros (d & Hid & Hd)%list_elem_of_fmap.
    apply first_of_each_id_in in Hd as [_ Hd]. apply Hd. rewrite <- Hid. left.
Qed.

Lemma first_of_each_id_covers (l : list device.Device) (seen : list Z)
    (d : device.Device) :
  d ∈ l ->
  device.DeviceID d ∈ seen \/
  device.DeviceID d ∈ (device.DeviceID <$> first_of_each_id seen l).
Proof.
  revert seen. induction l as [| x rest IH]; intros seen Hd;
    cbn [first_of_each_id]; [inversion Hd |].
  destruct (decide (device.DeviceID x ∈ seen)) as [Hin | Hout].
  - apply elem_of_cons in Hd as [-> | Hd]; [left; assumption | apply IH, Hd].
  - rewrite fmap_cons. apply elem_of_cons in Hd as [-> | Hd]; [right; left |].
    destruct (IH (device.DeviceID x :: seen) Hd) as [Hs | Hr].
    + apply elem_of_cons in Hs as [-> | Hs]; [right; left | left; assumption].
    + right. right. exact Hr.
Qed.

Lemma first_of_each_id_distinct (l : list device.Device) (seen : list Z) :
  NoDup (device.DeviceID <$> l) ->
  (forall d, d ∈ l -> device.DeviceID d ∉ seen) ->
  first_of_each_id seen l = l.
Proof.
  revert seen. induction l as [| x rest IH]; intros seen Hnd Hseen;
    cbn [first_of_each_id]; [reflexivity |].
  rewrite fmap_cons in Hnd. apply NoDup_cons in Hnd as [Hx Hnd].
  destruct (decide (device.DeviceID x ∈ seen)) as [Hin | _].
  - exfalso. apply (Hseen x); [left | assumption].
  - f_equal. apply IH; [assumption |].
    intros d Hd [Heq | Hs]%elem_of_cons.
    + apply Hx. rewrite <- Heq. apply list_elem_of_fmap. eauto.
    + apply (Hseen d); [right |]; assumption.
Qed.

Lemma first_of_each_id_keeps_first (l1 l2 : list device.Device) (seen : list Z)
    (d : device.Device) :
  device.DeviceID d ∉ seen ->
  device.DeviceID d ∉ (device.DeviceID <$> l1) ->
  d ∈ first_of_each_id seen (l1 ++ d :: l2).
Proof.
  revert seen. induction l1 as [| x rest IH]; intros seen Hseen Hl1;
    cbn [app first_of_each_id].
  - destruct (decide (device.DeviceID d ∈ seen)); [contradiction | left].
  - rewrite fmap_cons in Hl1. apply not_elem_of_cons in Hl1 as [Hne Hl1].
    destruct (decide (device.DeviceID x ∈ seen)); [apply IH; assumption |].
    right. apply IH; [| assumption].
    apply not_elem_of_cons. split; assumption.
Qed.

Lemma NoDup_fmap_same {A B : Type} (f : A -> B) (l : list A) (x y : A) :
  NoDup (f <$> l) -> x ∈ l -> y ∈ l -> f x = f y -> x = y.
Proof.
  induction l as [| a rest IH]; intros Hnd Hx Hy Hf; [inversion Hx |].
  rewrite fmap_cons in Hnd. apply NoDup_cons in Hnd as [Ha Hnd].
  apply elem_of_cons in Hx as [-> | Hx]; apply elem_of_cons in Hy as [-> | Hy].
  - reflexivity.
  - exfalso. apply Ha. rewrite Hf. apply list_elem_of_fmap. eauto.
  - exfalso. apply Ha. rewrite <- Hf. apply list_elem_of_fmap. eauto.
  - apply IH; assumption.
Qed.

(** X14: the devices [ListDevices] collects are the first device of every
    id, in the order the loops reach the tree (per building: the devices of
    the structure, of its areas, then per floor the devices of the floor and
    of its areas); no two collected devices share an id. *)
Theorem X14_devices_collected_once (buildings : list Building) :
  collectDevices buildings = first_of_each_id [] (tree_devices buildings) /\
  NoDup (device.DeviceID <$> collectDevices buildings).
Proof.
  rewrite collectDevices_first. split; [reflexivity |].
  apply first_of_each_id_NoDup.
Qed.

(** X15: every collected device is a device of the tree, and the id of every
    device of the tree is the id of a collected device. *)
Theorem X15_devices_collected_cover (buildings : list Building) (d : device.Device) :
  (d ∈ collectDevices buildings -> d ∈ tree_devices buildings) /\
  (d ∈ tree_devices buildings ->
   device.DeviceID d ∈ (device.DeviceID <$> collectDevices buildings)).
Proof.
  rewrite collectDevices_first. split.
  - intros H. apply first_of_each_id_in in H as [H _]. exact H.
  - intros H. destruct (first_of_each_id_covers _ [] _ H) as [Hs | Hr];
      [inversion Hs | exact Hr].
Qed.

Lemma X15_devices_collected_cover_witness :
  (exampleDevice 13 "shed" ∈ collectDevices exampleBuildings ->
   exampleDevice 13 "shed" ∈ tree_devices exampleBuildings) /\
  12 ∈ (device.DeviceID <$> collectDevices exampleBuildings).
Proof.
  split.
  - apply (X15_devices_collected_cover exampleBuildings (exampleDevice 13 "shed")).
  - apply (X15_devices_collected_cover exampleBuildings
             (exampleDevice 12 "attic again")).
    cbn. do 5 right. left.
Defined.

(** X16: when the ids of the tree are pairwise distinct, [ListDevices]
    collects every device of the tree, in traversal order. *)
Theorem X16_distinct_ids_collect_all (buildings : list Building) :
  NoDup (device.DeviceID <$> tree_devices buildings) ->
  collectDevices buildings = tree_devices buildings.
Proof.
  intros Hnd. rewrite collectDevices_first.
  apply first_of_each_id_distinct; [exact Hnd |].
  intros d _ H. inversion H.
Qed.

Lemma X16_distinct_ids_collect_all_witness :
  let tree :=
    [mkBuilding (mkStructure [exampleDevice 1 "a"] [mkArea [exampleDevice 2 "b"]]
       [mkFloor [exampleDevice 3 "c"] [mkArea [exampleDevice 4 "d"]]])] in
  collectDevices tree
    = [exampleDevice 1 "a"; exampleDevice 2 "b"; exampleDevice 3 "c";
       exampleDevice 4 "d"].
Proof.
  intros tree. apply (X16_distinct_ids_collect_all tree).
  cbn. repeat (apply NoDup_cons; split; [not_in_list |]). apply NoDup_nil_2.
Defined.

(** X17: the first device of the traversal with a given id is collected, and
    it is the only collected device with that id: a later device with the
    same id is dropped even when its other fields differ. *)
Theorem X17_first_device_of_id_wins (buildings : list Building)
    (l1 l2 : list device.Device) (d : device.Device) :
  tree_devices buildings = (l1 ++ d :: l2)%list ->
  device.DeviceID d ∉ (device.DeviceID <$> l1) ->
  d ∈ collectDevices buildings /\
  (forall d', d' ∈ collectDevices buildings ->
     device.DeviceID d' = device.DeviceID d -> d' = d).
Proof.
  intros Htree Hfirst.
  assert (Hd : d ∈ collectDevices buildings).
  { rewrite collectDevices_first, Htree.
    apply first_of_each_id_keeps_first; [intros H; inversion H | exact Hfirst]. }
  split; [exact Hd |].
  intros d' Hd' Hid.
  apply (NoDup_fmap_same device.DeviceID (collectDevices buildings));
    [rewrite collectDevices_first; apply first_of_each_id_NoDup | assumption ..].
Qed.

Lemma X17_first_device_of_id_wins_witness :
  exampleDevice 11 "kitchen" ∈ collectDevices exampleBuildings /\
  (forall d', d' ∈ collectDevices exampleBuildings ->
     device.DeviceID d' = 11 -> d' = exampleDevice 11 "kitchen").
Proof.
  apply (X17_first_device_of_id_wins exampleBuildings
           [exampleDevice 10 "hall"]
           [exampleDevice 10 "hall again"; exampleDevice 12 "attic";
            exampleDevice 11 "kitchen again"; exampleDevice 12 "attic again";
            exampleDevice 13 "shed"]
           (exampleDevice 11 "kitchen")).
  - reflexivity.
  - not_in_list.
Defined.

(** ** The transport calls *)

(** X18: [ListDevices] hands exactly one request to the transport, a GET of
    /User/ListDevices with the context key, user agent and accept headers,
    whatever the answer; it returns a device list exactly when the answer has
    status 200 and its body decodes, and the list is then the one collected
    from the decoded buildings. *)
Theorem X18_list_devices_call (J : JSON)
    (DecodeBuildings : string -> result (list Building)) (c : Client) :
  let req :=
    mkRequest "GET" (baseURL +:+ "/User/ListDevices")
      (<["Accept" := ["application/json"]]>
         (<["User-Agent" := ["melcloud-go"]]>
            (<["X-Mitscontextkey" := [token c]]> ∅))) "" in
  snd (ListDevices J DecodeBuildings c) = [req] /\
  (forall devices : list device.Device,
     fst (ListDevices J DecodeBuildings c) = Ok devices <->
     exists resp buildings,
       httpClient c req = Ok resp /\ StatusCode resp = 200 /\
       DecodeBuildings (RespBody resp) = Ok buildings /\
       devices = collectDevices buildings).
Proof.
  intros req. unfold ListDevices, NewRequest, setHeaders, Header_Set, StatusOK.
  cbn [Method URL Header Body]. canonical_keys. fold req.
  destruct (httpClient c req) as [resp | e].
  - destruct (Z.eqb_spec (StatusCode resp) 200) as [Hst | Hst]; cbn [negb].
    + destruct (DecodeBuildings (RespBody resp)) as [buildings | e] eqn:Hdec.
      * split; [reflexivity |]. intros devices. cbn [fst]. split.
        -- intros [= <-]. exists resp, buildings. auto.
        -- intros (resp' & buildings' & [= <-] & _ & Hdec' & ->).
           rewrite Hdec in Hdec'. injection Hdec' as <-. reflexivity.
      * split; [reflexivity |]. intros devices. cbn [fst]. split; [discriminate |].
        intros (resp' & buildings' & [= <-] & _ & Hdec' & _). congruence.
    + assert (Hno : forall devices : list device.Device,
                (exists resp0 buildings,
                   Ok resp = Ok resp0 /\ StatusCode resp0 = 200 /\
                   DecodeBuildings (RespBody resp0) = Ok buildings /\
                   devices = collectDevices buildings) -> False).
      { intros devices (resp' & buildings' & [= <-] & Hst' & _). contradiction. }
      destruct (DecodeDetails J (RespBody resp)); (split; [reflexivity |]);
        intros devices; cbn [fst]; (split; [discriminate |]);
        intros H; destruct (Hno _ H).
  - split; [reflexivity |]. intros devices. cbn [fst]. split; [discriminate |].
    intros (resp' & buildings' & [=] & _).
Qed.

(** X19: [GetDeviceState] hands exactly one request to the transport, a GET
    of /Device/Get with the two ids in the query and the three headers; it
    returns a state exactly when the answer has status 200 and its body
    decodes, and the state is then the decoded one with [BuildingID]
    overwritten by the argument. *)
Theorem X19_get_device_state_call (J : JSON) (c : Client) (deviceID buildingID : Z) :
  let req :=
    mkRequest "GET"
      (baseURL +:+ "/Device/Get?id=" +:+ Itoa deviceID
       +:+ "&buildingID=" +:+ Itoa buildingID)
      (<["Accept" := ["application/json"]]>
         (<["User-Agent" := ["melcloud-go"]]>
            (<["X-Mitscontextkey" := [token c]]> ∅))) "" in
  snd (GetDeviceState J c deviceID buildingID) = [req] /\
  (forall state : AtaDeviceState,
     fst (GetDeviceState J c deviceID buildingID) = Ok state <->
     exists resp decoded,
       httpClient c req = Ok resp /\ StatusCode resp = 200 /\
       DecodeState J (RespBody resp) = Ok decoded /\
       state = with_BuildingID buildingID decoded) /\
  (forall state : AtaDeviceState,
     fst (GetDeviceState J c deviceID buildingID) = Ok state ->
     BuildingID state = buildingID /\
     Header req !! "X-Mitscontextkey" = Some [token c] /\
     Header req !! "X-MitsContextKey" = None).
Proof.
  intros req.
  assert (Hread : forall state : AtaDeviceState,
            fst (GetDeviceState J c deviceID buildingID) = Ok state ->
            BuildingID state = buildingID /\
            Header req !! "X-Mitscontextkey" = Some [token c] /\
            Header req !! "X-MitsContextKey" = None).
  { intros state Hok.
    destruct (GetDeviceState J c deviceID buildingID) as [r sent] eqn:Hget.
    cbn [fst] in Hok. subst r.
    destruct (GetDeviceState_fresh _ _ _ _ _ _ Hget) as (resp & decoded & _ & -> & _).
    split; [reflexivity | split; reflexivity]. }
  apply and_assoc. split; [| exact Hread]. clear Hread. unfold GetDeviceState, NewRequest, setHeaders, Header_Set, StatusOK.
  cbn [Method URL Header Body]. canonical_keys. fold req.
  destruct (httpClient c req) as [resp | e].
  - destruct (Z.eqb_spec (StatusCode resp) 200) as [Hst | Hst]; cbn [negb].
    + destruct (DecodeState J (RespBody resp)) as [decoded | e] eqn:Hdec.
      * split; [reflexivity |]. intros state. cbn [fst]. split.
        -- intros [= <-]. exists resp, decoded. auto.
        -- intros (resp' & decoded' & [= <-] & _ & Hdec' & ->).
           rewrite Hdec in Hdec'. injection Hdec' as <-. reflexivity.
      * split; [reflexivity |]. intros state. cbn [fst]. split; [discriminate |].
        intros (resp' & decoded' & [= <-] & _ & Hdec' & _). congruence.
    + assert (Hno : forall state : AtaDeviceState,
                (exists resp0 decoded,
                   Ok resp = Ok resp0 /\ StatusCode resp0 = 200 /\
                   DecodeState J (RespBody resp0) = Ok decoded /\
                   state = with_BuildingID buildingID decoded) -> False).
      { intros state (resp' & decoded' & [= <-] & Hst' & _). contradiction. }
      destruct (DecodeDetails J (RespBody resp)); (split; [reflexivity |]);
        intros state; cbn [fst]; (split; [discriminate |]);
        intros H; destruct (Hno _ H).
  - split; [reflexivity |]. intros state. cbn [fst]. split; [discriminate |].
    intros (resp' & decoded' & [=] & _).
Qed.

Lemma X18_list_devices_call_witness :
  fst (ListDevices exampleJSON (fun _ => Ok exampleBuildings) exampleClient)
    = Ok [exampleDevice 10 "hall"; exampleDevice 11 "kitchen";
          exampleDevice 12 "attic"; exampleDevice 13 "shed"].
Proof.
  apply (X18_list_devices_call exampleJSON (fun _ => Ok exampleBuildings)
           exampleClient).
  exists (mkResponse 200 ""), exampleBuildings. repeat split.
Defined.

Lemma X19_get_device_state_call_witness :
  exists state : AtaDeviceState,
    fst (GetDeviceState exampleJSON exampleClient 10 42) = Ok state /\
    BuildingID state = 42.
Proof.
  destruct (X19_get_device_state_call exampleJSON exampleClient 10 42)
    as (_ & Hiff & Hread).
  exists (with_BuildingID 42 zeroAtaDeviceState).
  assert (Hok : fst (GetDeviceState exampleJSON exampleClient 10 42)
                = Ok (with_BuildingID 42 zeroAtaDeviceState)).
  { apply Hiff. exists (mkResponse 200 ""), zeroAtaDeviceState. repeat split. }
  split; [exact Hok | apply (Hread _ Hok)].
Defined.

(** X20: when [SetDeviceState] returns a state, the input had some flag set
    and device type 0, exactly one POST was sent with the marshalled guarded
    state as body, the answer had status 200, and the state returned is the
    one decoded from the answer with [BuildingID] taken from the input: its
    flags are those of the answer, not those that were sent. *)
Theorem X20_write_success (J : JSON) (cl : Client)
    (state updated : AtaDeviceState) (sent : list Request) :
  SetDeviceState J cl state = (Ok updated, sent) ->
  EffectiveFlags state <> 0 /\ DeviceType state = 0 /\
  exists (body : string) (resp : Response) (decoded : AtaDeviceState),
    let req :=
      mkRequest "POST" (baseURL +:+ "/Device/SetAta")
        (<["Content-Type" := ["application/json"]]>
          (<["Accept" := ["application/json"]]>
             (<["User-Agent" := ["melcloud-go"]]>
                (<["X-Mitscontextkey" := [token cl]]> ∅))))
        body in
    Marshal J (with_HasPendingCommand true state) = Ok body /\
    sent = [req] /\
    httpClient cl req = Ok resp /\ StatusCode resp = 200 /\
    DecodeState J (RespBody resp) = Ok decoded /\
    updated = with_BuildingID (BuildingID state) decoded /\
    EffectiveFlags updated = EffectiveFlags decoded /\
    BuildingID updated = BuildingID state /\
    Header req !! "X-Mitscontextkey" = Some [token cl].
Proof.
  unfold SetDeviceState, NewRequest, setHeaders, Header_Set, StatusOK.
  destruct (Z.eqb_spec (EffectiveFlags state) 0) as [| Hflags]; [discriminate |].
  cbv zeta. cbn [DeviceType BuildingID with_HasPendingCommand Method URL Header
                 Body].
  canonical_keys.
  destruct (Z.eqb_spec (DeviceType state) 0) as [Hty |]; [| discriminate].
  cbn [negb].
  destruct (Marshal J (with_HasPendingCommand true state)) as [body |] eqn:Hm;
    [| discriminate].
  destruct (httpClient cl _) as [resp |] eqn:Hdo; [| discriminate].
  destruct (Z.eqb_spec (StatusCode resp) 200) as [Hst |]; cbn [negb].
  - destruct (DecodeState J (RespBody resp)) as [decoded |] eqn:Hdec;
      [| discriminate].
    intros [= <- <-]. split; [exact Hflags | split; [exact Hty |]].
    exists body, resp, decoded. cbv zeta.
    repeat split; assumption || reflexivity.
  - destruct (DecodeDetails J (RespBody resp)); discriminate.
Qed.

Lemma X20_write_success_witness :
  let state := SetPower true zeroAtaDeviceState in
  EffectiveFlags state <> 0 /\ DeviceType state = 0 /\
  exists (body : string) (resp : Response) (decoded : AtaDeviceState),
    let req :=
      mkRequest "POST" (baseURL +:+ "/Device/SetAta")
        (<["Content-Type" := ["application/json"]]>
          (<["Accept" := ["application/json"]]>
             (<["User-Agent" := ["melcloud-go"]]>
                (<["X-Mitscontextkey" := [token exampleClient]]> ∅))))
        body in
    Marshal exampleJSON (with_HasPendingCommand true state) = Ok body /\
    snd (SetDeviceState exampleJSON exampleClient state) = [req] /\
    httpClient exampleClient req = Ok resp /\ StatusCode resp = 200 /\
    DecodeState exampleJSON (RespBody resp) = Ok decoded /\
    with_BuildingID 0 zeroAtaDeviceState
      = with_BuildingID (BuildingID state) decoded /\
    EffectiveFlags (with_BuildingID 0 zeroAtaDeviceState) = EffectiveFlags decoded /\
    BuildingID (with_BuildingID 0 zeroAtaDeviceState) = BuildingID state /\
    Header req !! "X-Mitscontextkey" = Some [token exampleClient].
Proof.
  intros state.
  apply (X20_write_success exampleJSON exampleClient state
           (with_BuildingID 0 zeroAtaDeviceState)
           (snd (SetDeviceState exampleJSON exampleClient state))).
  reflexivity.
Defined.

(** X21: [SetDeviceState] hands at most one request to the transport (no
    retry); a request it sends is a POST of /Device/SetAta with the context
    key, user agent, accept and content type headers; when the transport
    fails on it, or answers with a status other than 200, the call returns an
    error and no state. *)
Theorem X21_write_failures (J : JSON) (cl : Client) (state : AtaDeviceState) :
  (length (snd (SetDeviceState J cl state)) <= 1)%nat /\
  (forall req : Request,
     req ∈ snd (SetDeviceState J cl state) ->
     Method req = "POST" /\ URL req = baseURL +:+ "/Device/SetAta" /\
     Header req =
       (<["Content-Type" := ["application/json"]]>
          (<["Accept" := ["application/json"]]>
             (<["User-Agent" := ["melcloud-go"]]>
                (<["X-Mitscontextkey" := [token cl]]> ∅)))) /\
     (forall e : string,
        httpClient cl req = Err e ->
        fst (SetDeviceState J cl state)
          = Err ("failed to execute set device state request: " +:+ e)) /\
     (forall resp : Response,
        httpClient cl req = Ok resp -> StatusCode resp <> 200 ->
        exists msg : string, fst (SetDeviceState J cl state) = Err msg)).
Proof.
  unfold SetDeviceState, NewRequest, setHeaders, Header_Set, StatusOK.
  destruct (EffectiveFlags state =? 0);
    [split; [cbn; lia | intros req H; inversion H] |].
  cbv zeta. cbn [DeviceType BuildingID with_HasPendingCommand Method URL Header
                 Body].
  canonical_keys.
  destruct (negb (DeviceType state =? 0));
    [split; [cbn; lia | intros req H; inversion H] |].
  destruct (Marshal J (with_HasPendingCommand true state)) as [body |];
    [| split; [cbn; lia | intros req H; inversion H]].
  set (req0 := mkRequest _ _ _ body).
  assert (Hone : forall (r : result AtaDeviceState) (req : Request),
            req ∈ (r, [req0]).2 -> req = req0).
  { intros r req H. cbn in H. apply list_elem_of_singleton in H. exact H. }
  destruct (httpClient cl req0) as [resp | e] eqn:Hdo.
  - destruct (Z.eqb_spec (StatusCode resp) 200) as [Hst | Hst]; cbn [negb].
    + destruct (DecodeState J (RespBody resp)); (split; [cbn; lia |]);
        intros req ->%Hone; repeat split; try (intros e' He; congruence);
        intros resp' [= <-]; contradiction.
    + destruct (DecodeDetails J (RespBody resp)); (split; [cbn; lia |]);
        intros req ->%Hone; repeat split; try (intros e' He; congruence);
        intros resp' _ _; eexists; reflexivity.
  - split; [cbn; lia |].
    intros req ->%Hone. repeat split.
    + intros e' He. rewrite Hdo in He. injection He as <-. reflexivity.
    + intros resp He. congruence.
Qed.

Lemma X21_write_failures_witness :
  let busy := mkClient "context-key" (fun _ => Ok (mkResponse 503 "")) in
  exists msg : string,
    fst (SetDeviceState exampleJSON busy (SetPower true zeroAtaDeviceState))
      = Err msg.
Proof.
  intros busy.
  destruct (X21_write_failures exampleJSON busy (SetPower true zeroAtaDeviceState))
    as [_ Hreq].
  destruct (Hreq (mkRequest "POST" (baseURL +:+ "/Device/SetAta")
              (<["Content-Type" := ["application/json"]]>
          (<["Accept" := ["application/json"]]>
             (<["User-Agent" := ["melcloud-go"]]>
                (<["X-Mitscontextkey" := ["context-key"]]> ∅))))
              "{EffectiveFlags:1,HasPendingCommand:true}"))
    as (_ & _ & _ & _ & Hstatus).
  - cbn. left.
  - apply (Hstatus (mkResponse 503 "")); [reflexivity | discriminate].
Defined.

(** ** [Login] *)

(** X22: when the e-mail or the password variable of the environment is
    empty or unset, [Login] returns the error naming the two variables and
    sends nothing. *)
Theorem X22_login_needs_credentials (Getenv : string -> string)
    (MarshalBody : LoginBody -> result string) (Do : Request -> result Response)
    (J : JSON) (DecodeLogin : string -> result LoginResponse) :
  Getenv "MELCLOUD_EMAIL" = "" \/ Getenv "MELCLOUD_PASSWORD" = "" ->
  Login Getenv MarshalBody Do J DecodeLogin
    = (Err "MELCLOUD_EMAIL and MELCLOUD_PASSWORD environment variables must be set",
       []).
Proof.
  intros H. unfold Login. cbv zeta.
  destruct H as [-> | ->]; [reflexivity |].
  rewrite orb_true_r. reflexivity.
Qed.

Lemma X22_login_needs_credentials_witness :
  Login (fun name => if String.eqb name "MELCLOUD_EMAIL" then "user@example.org" else "")
    (fun _ => Ok "{}") (fun _ => Ok (mkResponse 200 "")) exampleJSON exampleDecodeLogin
    = (Err "MELCLOUD_EMAIL and MELCLOUD_PASSWORD environment variables must be set",
       []).
Proof.
  apply X22_login_needs_credentials. right. reflexivity.
Defined.

(** X23: when [Login] returns a client, both credentials were non-empty,
    exactly one request was sent, a POST of /Login/ClientLogin with the
    content type and user agent headers (no context key) whose body is the
    marshalled credentials, the answer had status 200 and decoded to a
    response without error id or error code, and the token of the client is
    the non-empty context key of that response. *)
Theorem X23_login_success (Getenv : string -> string)
    (MarshalBody : LoginBody -> result string) (Do : Request -> result Response)
    (J : JSON) (DecodeLogin : string -> result LoginResponse)
    (client : Client) (sent : list Request) :
  Login Getenv MarshalBody Do J DecodeLogin = (Ok client, sent) ->
  Getenv "MELCLOUD_EMAIL" <> "" /\ Getenv "MELCLOUD_PASSWORD" <> "" /\
  token client <> "" /\ httpClient client = Do /\
  exists (body : string) (resp : Response) (lr : LoginResponse),
    let req :=
      mkRequest "POST" (baseURL +:+ "/Login/ClientLogin")
        (<["User-Agent" := ["melcloud-go"]]> (<["Content-Type" := ["application/json"]]> ∅))
        body in
    MarshalBody (mkLoginBody (Getenv "MELCLOUD_EMAIL") (Getenv "MELCLOUD_PASSWORD")
                   0 "1.19.1.1" true None) = Ok body /\
    sent = [req] /\ Do req = Ok resp /\ StatusCode resp = 200 /\
    DecodeLogin (RespBody resp) = Ok lr /\
    ErrorId lr = None /\ LoginErrorCode lr = None /\
    token client = ContextKey (LoginData_ lr).
Proof.
  unfold Login, NewRequest, Header_Set, StatusOK, appVersion. cbv zeta.
  cbn [Method URL Header Body]. canonical_keys.
  destruct (String.eqb_spec (Getenv "MELCLOUD_EMAIL") "") as [| Hemail];
    [discriminate |].
  destruct (String.eqb_spec (Getenv "MELCLOUD_PASSWORD") "") as [| Hpw];
    [discriminate |].
  cbn [orb].
  destruct (MarshalBody _) as [body |] eqn:Hm; [| discriminate].
  destruct (Do _) as [resp |] eqn:Hdo; [| discriminate].
  destruct (Z.eqb_spec (StatusCode resp) 200) as [Hst |]; cbn [negb];
    [| destruct (DecodeDetails J (RespBody resp)); discriminate].
  destruct (DecodeLogin (RespBody resp)) as [lr |] eqn:Hdec; [| discriminate].
  destruct (bool_decide_reflect (ErrorId lr <> None)) as [| Hid];
    [discriminate |].
  destruct (bool_decide_reflect (LoginErrorCode lr <> None)) as [| Hcode];
    [discriminate |].
  cbn [orb].
  destruct (String.eqb_spec (ContextKey (LoginData_ lr)) "") as [| Hkey];
    [discriminate |].
  intros [= <- <-]. cbn [token httpClient].
  repeat (split; [assumption || reflexivity |]).
  exists body, resp, lr. cbv zeta.
  repeat split; try assumption.
  - destruct (ErrorId lr); [exfalso; apply Hid; discriminate | reflexivity].
  - destruct (LoginErrorCode lr); [exfalso; apply Hcode; discriminate | reflexivity].
Qed.

Lemma X23_login_success_witness :
  let Do := fun _ : Request => Ok (mkResponse 200 "") in
  let r := Login exampleGetenv (fun b => Ok (Email b +:+ ":" +:+ Password b))
             Do exampleJSON exampleDecodeLogin in
  exists client : Client,
    fst r = Ok client /\ token client <> "" /\ httpClient client = Do.
Proof.
  intros Do r.
  exists (mkClient "context-key" Do). split; [reflexivity |].
  destruct (X23_login_success exampleGetenv
              (fun b => Ok (Email b +:+ ":" +:+ Password b)) Do exampleJSON
              exampleDecodeLogin (mkClient "context-key" Do) (snd r) eq_refl)
    as (_ & _ & Htoken & Hdo & _).
  split; assumption.
Defined.
